(** * California winter extreme rainfall problem: fold generator and data loader

    A shallow embedding of [problem.py]: the cross-validation fold generator
    [get_cv] and the data loader [_read_data], together with the parts of
    numpy, scikit-learn, xarray and pandas that the two functions call.

    Python exceptions are values of [py.exn]; code that can raise returns a
    [py.result].  A numpy vector is a list; an index is a [nat], and so is a
    group id, which numpy keeps as the float of the same value. *)

From stdpp Require Import list sorting strings gmap.

(** ** Python exceptions, results and input/output *)

Module py.

(** The exceptions by class.  [FileNotFoundError] comes with the path
    that the failing call was given, [KeyError] with the key that was
    looked up; the text of a message is not modelled. *)
Inductive exn : Type :=
| ValueError
| KeyError (key : string)
| FileNotFoundError (filename : string)
| UnicodeDecodeError.

Inductive result (A : Type) : Type :=
| Ok (a : A)
| Raise (e : exn).
Global Arguments Ok {A} a.
Global Arguments Raise {A} e.

(** The world a call runs in: the files, by path, the lines printed so
    far, and the paths of the files that the process holds open, the one
    opened last first.  [F] is what a file holds. *)
Record world (F : Type) : Type :=
  World { files : gmap string F;
          stdout : list string;
          open_files : list string }.
Global Arguments World {F} files stdout open_files.
Global Arguments files {F} w.
Global Arguments stdout {F} w.
Global Arguments open_files {F} w.

(** Code that opens, reads and closes files and prints: it returns a
    value or raises, and leaves a world behind. *)
Definition io (F A : Type) : Type := world F → result A * world F.

(** Sequencing: an exception ends the computation and is handed on as
    it is. *)
Definition bind {A B} (r : result A) (k : A → result B) : result B :=
  match r with
  | Ok a => k a
  | Raise e => Raise e
  end.

Definition io_ret {F A} (a : A) : io F A := λ w, (Ok a, w).

Definition io_bind {F A B} (m : io F A) (k : A → io F B) : io F B :=
  λ w, match m w with
       | (Ok a, w') => k a w'
       | (Raise e, w') => (Raise e, w')
       end.

(** A computation that touches no file and prints nothing. *)
Definition lift {F A} (r : result A) : io F A := λ w, (r, w).

(** [print(line)] *)
Definition print {F} (line : string) : io F unit :=
  λ w, (Ok (), World (files w) (stdout w ++ [line]) (open_files w)).

(** The files held open when one handle of [path] is given back: the
    handle opened last goes. *)
Fixpoint release (path : string) (held : list string) : list string :=
  match held with
  | [] => []
  | p :: held' => if decide (p = path) then held' else p :: release path held'
  end.

(** [for x in l: s = body(s, x)] *)
Fixpoint for_each {F A S}
    (body : S → A → io F S) (l : list A) (s : S) : io F S :=
  match l with
  | [] => io_ret s
  | x :: l' => io_bind (body s x) (for_each body l')
  end.

(** [[f(x) for x in l]] *)
Fixpoint comprehension {A B} (f : A → result B) (l : list A)
  : result (list B) :=
  match l with
  | [] => Ok []
  | x :: l' =>
      bind (f x) (λ y, bind (comprehension f l') (λ ys, Ok (y :: ys)))
  end.

End py.

Notation "x <- r ;; k" := (py.bind r (λ x, k))
  (at level 100, r at next level, k at level 200, right associativity).
Notation "x <<- m ;; k" := (py.io_bind m (λ x, k))
  (at level 100, m at next level, k at level 200, right associativity).

(** ** numpy: the vector operations used by the fold generator *)

Module np.

(** [np.zeros(n)] *)
Definition zeros (n : nat) : list nat := replicate n 0.

(** [np.arange(n)] *)
Definition arange (n : nat) : list nat := seq 0 n.

(** [a[start:stop] = v]: a slice is clipped to the array, so positions
    past the end are left out, which is what [list_inserts] does. *)
Definition slice_fill (a : list nat) (start stop v : nat) : list nat :=
  list_inserts start (replicate (stop - start) v) a.

(** [np.unique(a)]: the distinct values of [a] in increasing order. *)
Definition unique (a : list nat) : list nat :=
  merge_sort (≤) (remove_dups a).

(** [a == v], elementwise. *)
Definition eq_mask (a : list nat) (v : nat) : list bool :=
  (λ x, bool_decide (x = v)) <$> a.

(** [np.logical_not(mask)] *)
Definition logical_not (mask : list bool) : list bool := negb <$> mask.

(** [a[mask]] for a boolean mask of the length of [a]: the elements of
    [a] at the positions where the mask holds, in order. *)
Fixpoint take_mask {A} (a : list A) (mask : list bool) : list A :=
  match a, mask with
  | x :: a', b :: mask' =>
      if b then x :: take_mask a' mask' else take_mask a' mask'
  | _, _ => []
  end.

End np.

(** ** scikit-learn: [LeaveOneGroupOut] *)

Module LeaveOneGroupOut.

(** A fold: the train indices and the test indices. *)
Definition fold : Type := list nat * list nat.

(** [_iter_test_masks]:
    [unique_groups = np.unique(groups)];
    [if len(unique_groups) <= 1: raise ValueError(...)] ("The groups
    parameter contains fewer than 2 unique groups");
    [for i in unique_groups: yield groups == i].
    An empty [groups] is refused with a [ValueError] too, by the check of
    the array before. *)
Definition _iter_test_masks (groups : list nat) : py.result (list (list bool)) :=
  let unique_groups := np.unique groups in
  if bool_decide (length unique_groups ≤ 1) then py.Raise py.ValueError
  else py.Ok ((λ i, np.eq_mask groups i) <$> unique_groups).

(** [indexable(X, y, groups)]: the three arguments must have the same
    number of samples. *)
Definition indexable {A B} (X : list A) (y : list B) (groups : list nat)
  : py.result unit :=
  if bool_decide (length X = length y ∧ length y = length groups)
  then py.Ok () else py.Raise py.ValueError.

(** [split(X, y, groups)], iterated to its end: the folds the generator
    yields, or the exception that iterating it raises.  For each mask,
    [train_index = indices[np.logical_not(test_index)]] and
    [test_index = indices[test_index]]. *)
Definition split {A B} (X : list A) (y : list B) (groups : list nat)
  : py.result (list fold) :=
  _ <- indexable X y groups ;;
  let indices := np.arange (length X) in
  masks <- _iter_test_masks groups ;;
  py.Ok ((λ test_index,
            (np.take_mask indices (np.logical_not test_index),
             np.take_mask indices test_index)) <$> masks).

End LeaveOneGroupOut.

(** ** The fold generator *)

Definition t_size : nat := 1155.

(** One pass of the loop body: [groups[i: i + t_size] = g; i += t_size]. *)
Definition get_cv_step (st : list nat * nat) (g : nat) : list nat * nat :=
  (np.slice_fill st.1 st.2 (st.2 + t_size) g, st.2 + t_size).

(** The state [(groups, i)] after the first [k] passes of the loop over a
    label vector of length [N]. *)
Definition get_cv_loop (N k : nat) : list nat * nat :=
  foldl get_cv_step (np.zeros N, 0) (seq 0 k).

(** [n_members = int(y.size / t_size)]: true division of two non-negative
    integers, truncated; the float quotient is exact enough for every size
    an array can have. *)
Definition n_members (N : nat) : nat := N / t_size.

(** The array [groups] when the loop of [get_cv] has ended. *)
Definition get_cv_groups (N : nat) : list nat :=
  (get_cv_loop N (n_members N)).1.

(** [get_cv(X, y)], with the returned generator iterated to its end. *)
Definition get_cv {A B} (X : A) (y : list B)
  : py.result (list LeaveOneGroupOut.fold) :=
  let groups := get_cv_groups (length y) in
  let X_cv := replicate (length y) [0; 0] in
  LeaveOneGroupOut.split X_cv y groups.

(** The folds written from the number of samples [N] alone, for the
    comparison with [get_cv]: one fold per full block of [t_size] samples;
    fold [g] tests block [g], and fold 0 the samples past the last full
    block as well; a fold trains on all other samples, in increasing
    order. *)
Definition folds_by_length (N : nat) : list LeaveOneGroupOut.fold :=
  let full := N / t_size * t_size in
  (λ g,
     let rest := seq full (N - full) in
     (seq 0 (g * t_size)
      ++ seq (g * t_size + t_size) (full - (g * t_size + t_size))
      ++ (if decide (g = 0) then [] else rest),
      seq (g * t_size) t_size ++ (if decide (g = 0) then rest else [])))
  <$> seq 0 (N / t_size).

(** ** [os.path.join] *)

Module os_path.

Fixpoint ends_with_sep (s : string) : bool :=
  match s with
  | EmptyString => false
  | String c EmptyString => bool_decide (String c EmptyString = "/")
  | String _ s' => ends_with_sep s'
  end.

(** One step of [posixpath.join]: an absolute component starts over. *)
Definition join2 (path b : string) : string :=
  if String.prefix "/" b then b
  else if bool_decide (path = "") || ends_with_sep path then path +:+ b
  else path +:+ "/" +:+ b.

Definition join (a : string) (p : list string) : string := foldl join2 a p.

End os_path.

(** ** xarray: labelled arrays *)

Module xr.

(** A coordinate value; an entry of a multi-index has one component per
    level.  Times are read with [decode_times=False], so they stay
    numbers. *)
Definition label : Type := list Z.

(** A dimension comes with its coordinate labels, or with its size alone
    when the file has no coordinate variable for it. *)
Inductive index : Type :=
| RangeDim (n : nat)
| Index (labels : list label).

#[global] Instance index_eq_dec : EqDecision index.
Proof. solve_decision. Defined.

Definition size (ix : index) : nat :=
  match ix with
  | RangeDim n => n
  | Index labels => length labels
  end.

(** [xarray.Variable]: an array with named dimensions; [data] maps a tuple of positions,
    one per dimension and in the order of [dims], to the element. *)
Record Var (V : Type) : Type :=
  { dims : list (string * index); data : list nat → V }.
Global Arguments dims {V} v.
Global Arguments data {V} v idx.

Record DataArray (V : Type) : Type :=
  { name : string; variable : Var V }.
Global Arguments name {V} d.
Global Arguments variable {V} d.

(** A dataset: its variables by name. *)
Abbreviation Dataset V := (gmap string (Var V)).

Definition dim_names {V} (v : Var V) : list string := (dims v).*1.

(** The position of a dimension among the dimensions, and its index. *)
Definition dim_position (names : list string) (d : string) : option nat :=
  fst <$> list_find (λ x, x = d) names.

Definition dim_index {V} (v : Var V) (d : string) : option index :=
  snd <$> (snd <$> list_find (λ p : string * index, p.1 = d) (dims v)).

(** The position along dimension [d] that the tuple [idx] holds; [names]
    are the dimensions that [idx] follows. *)
Definition at_dim (names : list string) (idx : list nat) (d : string) : nat :=
  default 0 (dim_position names d ≫= λ k, idx !! k).

(** [ds[key]] *)
Definition getitem {V} (ds : Dataset V) (key : string)
  : py.result (DataArray V) :=
  match ds !! key with
  | Some v => py.Ok {| name := key; variable := v |}
  | None => py.Raise (py.KeyError key)
  end.

(** The labels of a level of a multi-index: the coordinate labels, or
    the positions [0, 1, ...] for a dimension without coordinate. *)
Definition level_labels (ix : index) : list label :=
  match ix with
  | Index labels => labels
  | RangeDim n => (λ i, [Z.of_nat i]) <$> seq 0 n
  end.

(** [da.stack(new=(d1, d2))]: the two dimensions become one, placed
    last, whose position [s] stands for the pair
    [(s / size d2, s mod size d2)]; its index is the product of the two
    levels, the second level varying fastest.  A dimension that the array
    lacks raises [KeyError] with its name, [d1] before [d2].  A new name
    that is a dimension already raises [ValueError], and so does an array
    one of whose other dimensions has size 0: the data are reshaped with
    the extent of the new dimension left open, which numpy refuses when
    the extents given multiply to 0. *)
Definition stack {V} (da : DataArray V) (new d1 d2 : string)
  : py.result (DataArray V) :=
  let v := variable da in
  match dim_index v d1, dim_index v d2 with
  | None, _ => py.Raise (py.KeyError d1)
  | Some _, None => py.Raise (py.KeyError d2)
  | Some ix1, Some ix2 =>
      let others := filter (λ p : string * index, p.1 ≠ d1 ∧ p.1 ≠ d2) (dims v) in
      if bool_decide (new ∈ dim_names v)
         || bool_decide (Exists (λ p : string * index, size p.2 = 0) others)
      then py.Raise py.ValueError
      else
        let new_names := others.*1 ++ [new] in
        let labels :=
          l1 ← level_labels ix1; l2 ← level_labels ix2; [l1 ++ l2] in
        py.Ok {| name := name da;
                 variable :=
                   {| dims := others ++ [(new, Index labels)];
                      data := λ idx,
                        data v ((λ d,
                          if decide (d = d1) then at_dim new_names idx new / size ix2
                          else if decide (d = d2) then at_dim new_names idx new `mod` size ix2
                          else at_dim new_names idx d) <$> dim_names v) |} |}
  end.

(** [da.transpose(names...)]: [names] must be the dimensions of the array,
    in the wanted order. *)
Definition transpose {V} (da : DataArray V) (names : list string)
  : py.result (DataArray V) :=
  let v := variable da in
  if bool_decide (names ≡ₚ dim_names v) then
    py.Ok {| name := name da;
             variable :=
               {| dims := omap (λ d, (d,.) <$> dim_index v d) names;
                  data := λ idx, data v (at_dim names idx <$> dim_names v) |} |}
  else py.Raise py.ValueError.

(** *** [xr.merge]: alignment with the default [join="outer"] *)

(** The order of labels: lexicographic. *)
Fixpoint label_le (l1 l2 : label) : bool :=
  match l1, l2 with
  | [], _ => true
  | _ :: _, [] => false
  | x :: l1', y :: l2' =>
      if decide (x < y)%Z then true
      else if decide (x = y) then label_le l1' l2' else false
  end.

(** The indexes the variables have for dimension [d]. *)
Definition dim_indexes {V} (vs : list (Var V)) (d : string) : list index :=
  omap (λ v, dim_index v d) vs.

Definition labelled (ixs : list index) : list (list label) :=
  omap (λ ix, match ix with Index ls => Some ls | RangeDim _ => None end) ixs.

Definition unlabelled_sizes (ixs : list index) : list nat :=
  omap (λ ix, match ix with RangeDim n => Some n | Index _ => None end) ixs.

(** The joined index of a dimension: the common index when the labelled
    variables agree, else the sorted union of their labels; none when no
    variable has labels for the dimension. *)
Definition joined_index (ixs : list index) : option (list label) :=
  match labelled ixs with
  | [] => None
  | ls :: rest =>
      Some (if bool_decide (Forall (λ ls', ls' = ls) rest) then ls
            else merge_sort (λ l1 l2, label_le l1 l2)
                   (remove_dups (concat (ls :: rest))))
  end.

(** Alignment along one dimension fails when the sizes without labels
    differ from each other or from the size of the joined index, and
    when an index that has to be re-indexed holds a label twice. *)
Definition dim_conflict (ixs : list index) : bool :=
  let sizes := unlabelled_sizes ixs
               ++ match joined_index ixs with
                  | Some j => [length j]
                  | None => []
                  end in
  bool_decide (1 < length (remove_dups sizes))
  || bool_decide (Exists (λ ls, joined_index ixs ≠ Some ls ∧ ¬ NoDup ls)
                    (labelled ixs)).

(** Where position [k] of the joined index of one dimension is found in
    the variable's own index. *)
Definition old_position (joined : option (list label)) (ix : index) (k : nat)
  : option nat :=
  match ix, joined with
  | Index ls, Some j =>
      if decide (j = ls) then Some k
      else j !! k ≫= λ l, fst <$> list_find (λ l', l' = l) ls
  | _, _ => Some k
  end.

Definition reindexed_dim (joined : option (list label)) (p : string * index)
  : string * index :=
  match p.2, joined with
  | Index _, Some j => (p.1, Index j)
  | _, _ => p
  end.

(** A variable on the joined indexes: unchanged when its own indexes are
    the joined ones, else re-indexed, with [nan] where it has no value. *)
Definition reindex {V} (nan : V) (vs : list (Var V)) (v : Var V)
  : Var V :=
  let joined d := joined_index (dim_indexes vs d) in
  let dims' := (λ p, reindexed_dim (joined p.1) p) <$> dims v in
  if decide (dims' = dims v) then v
  else {| dims := dims';
          data := λ idx,
            match mapM (λ kp : nat * (string * index),
                          old_position (joined kp.2.1) kp.2.2 (idx !!! kp.1))
                    (imap (λ k p, (k, p)) (dims v)) with
            | Some idx' => data v idx'
            | None => nan
            end |}.

(** The variables by name; [_read_data] merges three arrays of different
    names, and two arrays of one name are refused here. *)
Fixpoint to_dataset {V} (das : list (DataArray V)) (ds : Dataset V)
  : py.result (Dataset V) :=
  match das with
  | [] => py.Ok ds
  | da :: das' =>
      match ds !! name da with
      | Some _ => py.Raise py.ValueError
      | None => to_dataset das' (<[name da := variable da]> ds)
      end
  end.

(** [xr.merge(objects)] *)
Definition merge {V} (nan : V) (objects : list (DataArray V))
  : py.result (Dataset V) :=
  let vs := variable <$> objects in
  let all_dims := remove_dups (vs ≫= dim_names) in
  if bool_decide (Exists (λ d, dim_conflict (dim_indexes vs d) = true) all_dims)
  then py.Raise py.ValueError
  else to_dataset
         ((λ da, {| name := name da;
                    variable := reindex nan vs (variable da) |}) <$> objects)
         ∅.

End xr.

(** ** pandas: tables *)

Module pd.

(** A table as the parser reads it from a file: the column names of the
    header, each with the cells of its column. *)
Abbreviation table V := (list (string * list V)).

Record DataFrame (V : Type) : Type :=
  { index : list V; column_data : list (string * list V) }.
Global Arguments index {V} d.
Global Arguments column_data {V} d.

(** [df.columns] *)
Definition columns {V} (df : DataFrame V) : list string :=
  (column_data df).*1.

(** [df[c]] *)
Definition getitem {V} (df : DataFrame V) (c : string) : py.result (list V) :=
  match list_find (λ p : string * list V, p.1 = c) (column_data df) with
  | Some (_, p) => py.Ok p.2
  | None => py.Raise (py.KeyError c)
  end.

(** The frame of a table whose column [index_col] is the index. *)
Definition set_index {V} (t : table V) (index_col : string)
  : py.result (DataFrame V) :=
  match list_find (λ p : string * list V, p.1 = index_col) t with
  | Some (i, p) => py.Ok {| index := p.2; column_data := delete i t |}
  | None => py.Raise py.ValueError
  end.

End pd.

(** ** Files *)

Inductive file (V : Type) : Type :=
| NetCDF (ds : xr.Dataset V)
| CSV (t : pd.table V).
Arguments NetCDF {V} ds.
Arguments CSV {V} t.

(** A dataset opened from a file: the path of the file, which the
    dataset holds open until it is closed, and the variables. *)
Record opened (V : Type) : Type :=
  { source : string; vars : xr.Dataset V }.
Arguments source {V} _.
Arguments vars {V} _.

(** [xr.open_dataset(path, decode_times=False)]: the file is opened and
    stays open.  A missing file raises [FileNotFoundError]; a file that no
    backend recognises, as a table of text, raises [ValueError]. *)
Definition open_dataset {V} (path : string) : py.io (file V) (opened V) :=
  λ w, match py.files w !! path with
       | None => (py.Raise (py.FileNotFoundError path), w)
       | Some (NetCDF ds) =>
           (py.Ok {| source := path; vars := ds |},
            py.World (py.files w) (py.stdout w) (path :: py.open_files w))
       | Some (CSV _) => (py.Raise py.ValueError, w)
       end.

(** [ds.load()]: the values are read into memory.  An [opened] holds the
    values from the start, so nothing is left to do. *)
Definition load {V} (ds : opened V) : py.io (file V) unit := py.io_ret ().

(** [ds.close()]: the file is given back. *)
Definition close {V} (ds : opened V) : py.io (file V) unit :=
  λ w, (py.Ok (),
        py.World (py.files w) (py.stdout w)
          (py.release (source ds) (py.open_files w))).

(** [pd.read_csv(path, index_col=index_col)]: the file is opened, read
    and closed by the call.  A file that is not text, as a NetCDF file,
    raises [UnicodeDecodeError]. *)
Definition read_csv {V} (path index_col : string)
  : py.io (file V) (pd.DataFrame V) :=
  λ w, match py.files w !! path with
       | None => (py.Raise (py.FileNotFoundError path), w)
       | Some (CSV t) => (pd.set_index t index_col, w)
       | Some (NetCDF _) => (py.Raise py.UnicodeDecodeError, w)
       end.

(** [np.concatenate(arrays)] of vectors: an empty sequence of arrays is
    refused. *)
Definition concatenate {V} (arrays : list (list V)) : py.result (list V) :=
  match arrays with
  | [] => py.Raise py.ValueError
  | _ => py.Ok (concat arrays)
  end.

(** ** The data loader *)

(** [join(path, "data", f_prefix + "_{0}.nc".format(data_var))] *)
Definition nc_file (path f_prefix data_var : string) : string :=
  os_path.join path ["data"; f_prefix +:+ "_" +:+ data_var +:+ ".nc"].

(** [join(path, "data", f_prefix + "_precip_90.csv")] *)
Definition csv_file (path f_prefix : string) : string :=
  os_path.join path ["data"; f_prefix +:+ "_precip_90.csv"].

Definition data_vars : list string := ["TS"; "PSL"; "TMQ"].

(** One pass of the loop over [data_vars].  An exception between
    [open_dataset] and [ds.close()] skips the [ds.close()]: the pass has
    no handler. *)
Definition _read_data_step {V} (path f_prefix : string)
    (X_coll : list (xr.DataArray V)) (data_var : string)
  : py.io (file V) (list (xr.DataArray V)) :=
  let nc_file := nc_file path f_prefix data_var in
  _ <<- py.print nc_file ;;
  ds <<- open_dataset nc_file ;;
  _ <<- load ds ;;
  da <<- py.lift (xr.getitem (vars ds) data_var) ;;
  stacked <<- py.lift (xr.stack da "enstime" "ens" "time") ;;
  transposed <<- py.lift (xr.transpose stacked ["enstime"; "lat"; "lon"]) ;;
  _ <<- close ds ;;
  py.io_ret (X_coll ++ [transposed]).

Definition _read_data {V} (nan : V) (path f_prefix : string)
  : py.io (file V) (xr.Dataset V * list V) :=
  X_coll <<- py.for_each (_read_data_step path f_prefix) data_vars [] ;;
  X_ds <<- py.lift (xr.merge nan X_coll) ;;
  y <<- read_csv (csv_file path f_prefix) "Year" ;;
  cols <<- py.lift (py.comprehension (pd.getitem y) (pd.columns y)) ;;
  y_array <<- py.lift (concatenate cols) ;;
  py.io_ret (X_ds, y_array).

(** The gridded half of [_read_data]: the loop and the merge. *)
Definition _read_data_grids {V} (nan : V) (path f_prefix : string)
  : py.io (file V) (xr.Dataset V) :=
  X_coll <<- py.for_each (_read_data_step path f_prefix) data_vars [] ;;
  py.lift (xr.merge nan X_coll).

(** The label half of [_read_data]: the table and its columns laid end to
    end. *)
Definition _read_data_labels {V} (path f_prefix : string)
  : py.io (file V) (list V) :=
  y <<- read_csv (csv_file path f_prefix) "Year" ;;
  cols <<- py.lift (py.comprehension (pd.getitem y) (pd.columns y)) ;;
  py.lift (concatenate cols).

Definition get_train_data {V} (nan : V) (path : string) := _read_data nan path "train".

Definition get_test_data {V} (nan : V) (path : string) := _read_data nan path "test".

(** ** Reading without writing *)

(** A computation that leaves the files as they are and whose outcome is
    decided by the files alone, whatever was printed before and whichever
    files are held open. *)
Definition reads_only {F A} (m : py.io F A) : Prop :=
  ∀ w, py.files (m w).2 = py.files w ∧
       ∀ w', py.files w' = py.files w → (m w').1 = (m w).1.

(** ** Vocabulary for the statements about the loader *)

(** The four files a call reads, in the order it reads them. *)
Definition expected_files (path f_prefix : string) : list string :=
  (nc_file path f_prefix <$> data_vars) ++ [csv_file path f_prefix].

(** The file of variable [data_var] is there and holds [v] under that
    name, over the dimensions [(ens, time, lat, lon)] with the given
    indexes. *)
Definition gridded_file {V} (w : py.world (file V)) (path f_prefix data_var : string)
    (v : xr.Var V) (ix_ens ix_time ix_lat ix_lon : xr.index) : Prop :=
  ∃ ds, py.files w !! nc_file path f_prefix data_var = Some (NetCDF ds) ∧
        ds !! data_var = Some v ∧
        xr.dims v = [("ens", ix_ens); ("time", ix_time);
                     ("lat", ix_lat); ("lon", ix_lon)].

(** The index of the stacked dimension: every pair of a member label and
    a time label, the time label varying fastest. *)
Definition enstime_index (ix_ens ix_time : xr.index) : xr.index :=
  xr.Index (l1 ← xr.level_labels ix_ens; l2 ← xr.level_labels ix_time; [l1 ++ l2]).

(** ** Example inputs *)

(** A grid whose element at [(e, t, la, lo)] spells out its position. *)
Definition example_grid (n_ens n_time n_lat n_lon : nat) : xr.Var Z :=
  {| xr.dims := [("ens", xr.RangeDim n_ens); ("time", xr.RangeDim n_time);
                 ("lat", xr.RangeDim n_lat); ("lon", xr.RangeDim n_lon)];
     xr.data := λ idx,
       match idx with
       | [e; t; la; lo] =>
           (1000 * Z.of_nat e + 100 * Z.of_nat t
            + 10 * Z.of_nat la + Z.of_nat lo)%Z
       | _ => 0%Z
       end |}.

Definition example_table : pd.table Z :=
  [("Year", [1980; 1981; 1982]%Z); ("m1", [0; 1; 0]%Z); ("m2", [1; 1; 0]%Z)].

(** Two members, three years, a grid of one latitude and two longitudes. *)
Definition example_files : gmap string (file Z) :=
  {[ "./data/train_TS.nc" := NetCDF {[ "TS" := example_grid 2 3 1 2 ]};
     "./data/train_PSL.nc" := NetCDF {[ "PSL" := example_grid 2 3 1 2 ]};
     "./data/train_TMQ.nc" := NetCDF {[ "TMQ" := example_grid 2 3 1 2 ]};
     "./data/train_precip_90.csv" := CSV example_table ]}.

(** The same files, but the pressure file has two years only. *)
Definition example_files_short_PSL : gmap string (file Z) :=
  <[ "./data/train_PSL.nc" := NetCDF {[ "PSL" := example_grid 2 2 1 2 ]} ]>
    example_files.

(** The same files, but the pressure file has two latitudes. *)
Definition example_files_wide_PSL : gmap string (file Z) :=
  <[ "./data/train_PSL.nc" := NetCDF {[ "PSL" := example_grid 2 3 2 2 ]} ]>
    example_files.

(** A computation whose outcome is decided by the files at the paths [ps]
    alone: not by another file, nor by what was printed, nor by the files
    held open. *)
Definition reads_within {F A} (ps : list string) (m : py.io F A) : Prop :=
  ∀ w w', (∀ p, p ∈ ps → py.files w !! p = py.files w' !! p) →
          (m w).1 = (m w').1.

(** A table of two members with 1155 years each, and the example files
    with this table. *)
Definition example_table_members : pd.table Z :=
  [("Year", Z.of_nat <$> seq 0 1155);
   ("m1", replicate 1155 0%Z); ("m2", replicate 1155 1%Z)].

Definition example_files_members : gmap string (file Z) :=
  <[ "./data/train_precip_90.csv" := CSV example_table_members ]>
    example_files.




(** * Properties of the fold generator *)

Example get_cv_groups_small : get_cv_groups 3 = [0; 0; 0].
Proof. reflexivity. Qed.

Lemma t_size_pos : 0 < t_size.
Proof. unfold t_size. lia. Qed.

#[local] Opaque t_size.

(** ** The loop that numbers the blocks *)

Lemma get_cv_loop_S N k :
  get_cv_loop N (S k) = get_cv_step (get_cv_loop N k) k.
Proof. unfold get_cv_loop. by rewrite seq_S, foldl_snoc. Qed.

Lemma get_cv_loop_snd N k : (get_cv_loop N k).2 = k * t_size.
Proof.
  induction k as [|k IH]; [done|].
  rewrite get_cv_loop_S. simpl. rewrite IH. lia.
Qed.

Lemma get_cv_loop_length N k : length (get_cv_loop N k).1 = N.
Proof.
  induction k as [|k IH].
  - apply length_replicate.
  - rewrite get_cv_loop_S. simpl. unfold np.slice_fill.
    by rewrite length_inserts.
Qed.

Lemma block_div j k : k * t_size ≤ j < k * t_size + t_size → j / t_size = k.
Proof.
  intros Hj. symmetry.
  apply (Nat.div_unique j t_size k (j - k * t_size)); lia.
Qed.

(** After [k] passes the blocks below [k * t_size] carry their number and
    everything above is still zero. *)
Lemma get_cv_loop_lookup N k j :
  j < N →
  (get_cv_loop N k).1 !! j
  = Some (if decide (j < k * t_size) then j / t_size else 0).
Proof.
  intros Hj. induction k as [|k IH].
  - simpl. unfold np.zeros. by rewrite lookup_replicate_2.
  - rewrite get_cv_loop_S. simpl. unfold np.slice_fill.
    rewrite get_cv_loop_snd.
    replace (k * t_size + t_size - k * t_size) with t_size by lia.
    destruct (decide (j < k * t_size)) as [Hlt|Hge].
    + rewrite list_lookup_inserts_lt by done.
      rewrite IH. by rewrite !decide_True by lia.
    + destruct (decide (j < k * t_size + t_size)) as [Hin|Hout].
      * rewrite list_lookup_inserts
          by (rewrite ?length_replicate, ?get_cv_loop_length; lia).
        rewrite lookup_replicate_2 by lia.
        rewrite decide_True by lia.
        by rewrite (block_div j k) by lia.
      * rewrite list_lookup_inserts_ge by (rewrite length_replicate; lia).
        rewrite IH. by rewrite !decide_False by lia.
Qed.

Lemma get_cv_groups_length N : length (get_cv_groups N) = N.
Proof. apply get_cv_loop_length. Qed.

Lemma get_cv_groups_lookup N j :
  j < N →
  get_cv_groups N !! j
  = Some (if decide (j < n_members N * t_size) then j / t_size else 0).
Proof. apply get_cv_loop_lookup. Qed.

Lemma n_members_le N : n_members N * t_size ≤ N.
Proof.
  unfold n_members. pose proof t_size_pos.
  rewrite Nat.mul_comm. apply Nat.Div0.mul_div_le.
Qed.

Lemma n_members_lt N : N < n_members N * t_size + t_size.
Proof.
  unfold n_members. pose proof t_size_pos.
  pose proof (Nat.div_mod_eq N t_size).
  pose proof (Nat.mod_upper_bound N t_size). lia.
Qed.

Lemma n_members_ge N k : k * t_size ≤ N → k ≤ n_members N.
Proof.
  intros Hk. pose proof (n_members_lt N). pose proof t_size_pos.
  destruct (decide (k ≤ n_members N)); [done|].
  assert ((n_members N + 1) * t_size ≤ k * t_size)
    by (apply Nat.mul_le_mono_r; lia).
  lia.
Qed.

Lemma n_members_small N k : N < k * t_size → n_members N < k.
Proof.
  intros Hk. pose proof (n_members_le N).
  destruct (decide (n_members N < k)); [done|].
  assert (k * t_size ≤ n_members N * t_size)
    by (apply Nat.mul_le_mono_r; lia).
  lia.
Qed.

(** ** [np.unique] *)

Lemma unique_Sorted a : Sorted (≤) (np.unique a).
Proof. apply (Sorted_merge_sort (≤)). Qed.

Lemma unique_NoDup a : NoDup (np.unique a).
Proof.
  unfold np.unique. rewrite merge_sort_Permutation.
  apply NoDup_remove_dups.
Qed.

Lemma elem_of_unique a x : x ∈ np.unique a ↔ x ∈ a.
Proof.
  unfold np.unique. rewrite merge_sort_Permutation.
  apply elem_of_remove_dups.
Qed.

Lemma Sorted_le_seq s n : Sorted (≤) (seq s n).
Proof.
  revert s. induction n as [|n IH]; intros s; simpl; constructor.
  - apply IH.
  - destruct n; simpl; constructor. lia.
Qed.

(** A vector whose values are exactly the numbers below [n] has the
    distinct values [0, 1, ..., n - 1]. *)
Lemma unique_eq_seq a n : (∀ x, x ∈ a ↔ x < n) → np.unique a = seq 0 n.
Proof.
  intros Ha. apply (Sorted_unique (≤)).
  - apply unique_Sorted.
  - apply Sorted_le_seq.
  - apply NoDup_Permutation.
    + apply unique_NoDup.
    + apply NoDup_seq.
    + intros x. rewrite elem_of_unique, elem_of_seq, Ha. lia.
Qed.

(** A constant vector has at most one distinct value. *)
Lemma unique_constant a v : (∀ x, x ∈ a → x = v) → length (np.unique a) ≤ 1.
Proof.
  intros Ha. pose proof (unique_NoDup a) as Hnd.
  assert (∀ x, x ∈ np.unique a → x = v) as Hu
    by (intros x Hx; apply Ha; by apply elem_of_unique).
  destruct (np.unique a) as [|x [|x' l]]; simpl; [lia..|].
  exfalso. apply NoDup_cons in Hnd as [Hx _]. apply Hx.
  rewrite (Hu x), (Hu x') by set_solver. set_solver.
Qed.

(** ** Boolean masks *)

Lemma filter_ext_elem {A} (P1 P2 : A → Prop)
    `{!∀ x, Decision (P1 x), !∀ x, Decision (P2 x)} (l : list A) :
  (∀ x, x ∈ l → (P1 x ↔ P2 x)) → filter P1 l = filter P2 l.
Proof.
  induction l as [|a l IH]; intros HP; [done|].
  rewrite !filter_cons.
  rewrite IH by (intros x Hx; apply HP; by right).
  destruct (decide (P1 a)) as [H1|H1], (decide (P2 a)) as [H2|H2];
    try done; exfalso; apply (HP a) in H1 || apply (HP a) in H2;
    try done; by left.
Qed.

Lemma take_mask_seq (mask : list bool) s :
  np.take_mask (seq s (length mask)) mask
  = filter (λ i, mask !! (i - s) = Some true) (seq s (length mask)).
Proof.
  revert s. induction mask as [|b mask IH]; intros s; [done|].
  cbn [length seq np.take_mask]. rewrite filter_cons, Nat.sub_diag.
  assert (filter (λ i, (b :: mask) !! (i - s) = Some true)
            (seq (S s) (length mask))
          = filter (λ i, mask !! (i - S s) = Some true)
              (seq (S s) (length mask))) as ->.
  { apply filter_ext_elem. intros i Hi.
    apply elem_of_seq in Hi.
    replace (i - s) with (S (i - S s)) by lia. done. }
  rewrite <-IH. destruct b.
  - by rewrite decide_True.
  - by rewrite decide_False.
Qed.

Lemma eq_mask_length a v : length (np.eq_mask a v) = length a.
Proof. apply length_fmap. Qed.

Lemma eq_mask_lookup a v i :
  np.eq_mask a v !! i = Some true ↔ a !! i = Some v.
Proof.
  unfold np.eq_mask. rewrite list_lookup_fmap.
  destruct (a !! i) as [x|]; simpl; [|done].
  split.
  - intros [= Hx]. apply bool_decide_eq_true in Hx. by subst.
  - intros [= ->]. by rewrite bool_decide_eq_true_2.
Qed.

Lemma logical_not_eq_mask_lookup a v i :
  i < length a →
  np.logical_not (np.eq_mask a v) !! i = Some true ↔ a !! i ≠ Some v.
Proof.
  intros Hi. unfold np.logical_not, np.eq_mask.
  rewrite !list_lookup_fmap.
  destruct (lookup_lt_is_Some_2 a i Hi) as [x ->]. simpl.
  destruct (decide (x = v)) as [->|Hne].
  - rewrite bool_decide_eq_true_2 by done. simpl. split; [done|congruence].
  - rewrite bool_decide_eq_false_2 by done. simpl. split; [congruence|done].
Qed.

(** The test indices of group [g]: the indices labelled [g], increasing. *)
Lemma take_mask_eq_mask a v :
  np.take_mask (np.arange (length a)) (np.eq_mask a v)
  = filter (λ i, a !! i = Some v) (seq 0 (length a)).
Proof.
  unfold np.arange. rewrite <-(eq_mask_length a v) at 1.
  rewrite take_mask_seq, eq_mask_length.
  apply list_filter_iff. intros i. rewrite Nat.sub_0_r.
  apply eq_mask_lookup.
Qed.

(** The train indices of group [g]: all the other indices, increasing. *)
Lemma take_mask_not_eq_mask a v :
  np.take_mask (np.arange (length a)) (np.logical_not (np.eq_mask a v))
  = filter (λ i, a !! i ≠ Some v) (seq 0 (length a)).
Proof.
  unfold np.arange.
  assert (length (np.logical_not (np.eq_mask a v)) = length a) as Hlen
    by (unfold np.logical_not; by rewrite length_fmap, eq_mask_length).
  rewrite <-Hlen at 1. rewrite take_mask_seq, Hlen.
  apply filter_ext_elem. intros i Hi.
  apply elem_of_seq in Hi. rewrite Nat.sub_0_r.
  apply logical_not_eq_mask_lookup. lia.
Qed.

(** ** [LeaveOneGroupOut.split] *)

Lemma split_few_groups {A B} (X : list A) (y : list B) groups :
  length (np.unique groups) ≤ 1 →
  LeaveOneGroupOut.split X y groups = py.Raise py.ValueError.
Proof.
  intros Hu. unfold LeaveOneGroupOut.split, LeaveOneGroupOut.indexable.
  case_bool_decide; [|done]. simpl.
  unfold LeaveOneGroupOut._iter_test_masks.
  by rewrite bool_decide_eq_true_2.
Qed.

Lemma split_folds {A B} (X : list A) (y : list B) groups :
  length X = length y → length y = length groups →
  2 ≤ length (np.unique groups) →
  LeaveOneGroupOut.split X y groups
  = py.Ok ((λ g, (filter (λ i, groups !! i ≠ Some g) (seq 0 (length groups)),
                  filter (λ i, groups !! i = Some g) (seq 0 (length groups))))
             <$> np.unique groups).
Proof.
  intros HX Hy Hu. unfold LeaveOneGroupOut.split, LeaveOneGroupOut.indexable.
  rewrite bool_decide_eq_true_2 by done. simpl.
  unfold LeaveOneGroupOut._iter_test_masks.
  rewrite bool_decide_eq_false_2 by lia. simpl.
  f_equal. rewrite <-list_fmap_compose. apply list_fmap_ext.
  intros _ g _. simpl. rewrite HX, Hy.
  by rewrite take_mask_eq_mask, take_mask_not_eq_mask.
Qed.

(** ** The group ids that occur *)

Lemma get_cv_groups_lookup_lt N j :
  j < N → ∃ g, get_cv_groups N !! j = Some g ∧ g < Nat.max 1 (n_members N).
Proof.
  intros Hj. eexists. split; [by apply get_cv_groups_lookup|].
  pose proof t_size_pos. case_decide; [|lia].
  assert (j / t_size < n_members N); [|lia].
  apply Nat.Div0.div_lt_upper_bound. lia.
Qed.

Lemma elem_of_get_cv_groups N x :
  t_size ≤ N → x ∈ get_cv_groups N ↔ x < n_members N.
Proof.
  intros HN. pose proof t_size_pos.
  assert (1 ≤ n_members N) by (apply n_members_ge; lia).
  rewrite list_elem_of_lookup. split.
  - intros [j Hj].
    assert (j < N) as HjN
      by (rewrite <-(get_cv_groups_length N); by eapply lookup_lt_Some).
    destruct (get_cv_groups_lookup_lt N j HjN) as (g & Hg & Hlt).
    rewrite Hj in Hg. injection Hg as ->. lia.
  - intros Hx. exists (x * t_size).
    pose proof (n_members_le N).
    assert (x * t_size + t_size ≤ n_members N * t_size)
      by (replace (x * t_size + t_size) with ((x + 1) * t_size) by lia;
          apply Nat.mul_le_mono_r; lia).
    rewrite get_cv_groups_lookup by lia.
    rewrite decide_True by lia.
    by rewrite (block_div (x * t_size) x) by lia.
Qed.

Lemma get_cv_groups_zero N x :
  N < 2 * t_size → x ∈ get_cv_groups N → x = 0.
Proof.
  intros HN Hx. apply list_elem_of_lookup in Hx as [j Hj].
  assert (j < N) as HjN
    by (rewrite <-(get_cv_groups_length N); by eapply lookup_lt_Some).
  destruct (get_cv_groups_lookup_lt N j HjN) as (g & Hg & Hlt).
  rewrite Hj in Hg. injection Hg as ->.
  assert (n_members N < 2) by (apply n_members_small; lia). lia.
Qed.

(** ** What [get_cv] returns *)

(** Below two full blocks every sample has group 0, and the split is
    refused. *)
Lemma get_cv_few_groups {A B} (X : A) (y : list B) :
  length y < 2 * t_size → get_cv X y = py.Raise py.ValueError.
Proof.
  intros HN. unfold get_cv. apply split_few_groups.
  apply (unique_constant _ 0). intros x. by apply get_cv_groups_zero.
Qed.

(** From two full blocks on there is one fold per block, in the order of
    the blocks. *)
Lemma get_cv_folds {A B} (X : A) (y : list B) :
  2 * t_size ≤ length y →
  get_cv X y
  = py.Ok ((λ g, (filter (λ i, get_cv_groups (length y) !! i ≠ Some g)
                    (seq 0 (length y)),
                  filter (λ i, get_cv_groups (length y) !! i = Some g)
                    (seq 0 (length y))))
             <$> seq 0 (n_members (length y))).
Proof.
  intros HN. unfold get_cv. pose proof t_size_pos.
  assert (np.unique (get_cv_groups (length y))
          = seq 0 (n_members (length y))) as Hu.
  { apply unique_eq_seq. intros x. apply elem_of_get_cv_groups. lia. }
  rewrite split_folds.
  - by rewrite Hu, get_cv_groups_length.
  - by rewrite length_replicate.
  - by rewrite get_cv_groups_length.
  - rewrite Hu, length_seq. apply n_members_ge. lia.
Qed.

(** ** The shape of a test set *)

Lemma filter_all {A} (P : A → Prop) `{!∀ x, Decision (P x)} (l : list A) :
  (∀ x, x ∈ l → P x) → filter P l = l.
Proof.
  induction l as [|a l IH]; intros HP; [done|].
  rewrite filter_cons_True by (apply HP; by left).
  f_equal. apply IH. intros x Hx. apply HP. by right.
Qed.

Lemma filter_none {A} (P : A → Prop) `{!∀ x, Decision (P x)} (l : list A) :
  (∀ x, x ∈ l → ¬ P x) → filter P l = [].
Proof.
  induction l as [|a l IH]; intros HP; [done|].
  rewrite filter_cons_False by (apply HP; by left).
  apply IH. intros x Hx. apply HP. by right.
Qed.

Lemma seq_split3 a b c : seq 0 (a + b + c) = seq 0 a ++ seq a b ++ seq (a + b) c.
Proof. by rewrite <-Nat.add_assoc, !seq_app. Qed.

(** The test set of block [g] is the block itself; the samples past the
    last full block go with block 0. *)
Lemma test_set_block N g :
  g < n_members N →
  filter (λ i, get_cv_groups N !! i = Some g) (seq 0 N)
  = seq (g * t_size) t_size
    ++ (if decide (g = 0) then seq (n_members N * t_size)
                                 (N - n_members N * t_size)
        else []).
Proof.
  intros Hg. pose proof t_size_pos. pose proof (n_members_le N) as Hle.
  assert (g * t_size + t_size ≤ n_members N * t_size) as Hblock
    by (replace (g * t_size + t_size) with ((g + 1) * t_size) by lia;
        apply Nat.mul_le_mono_r; lia).
  set (n := n_members N) in *.
  replace (seq 0 N) with (seq 0 (n * t_size + (N - n * t_size)))
    by (f_equal; lia).
  rewrite seq_app, filter_app. simpl.
  replace (seq 0 (n * t_size))
    with (seq 0 (g * t_size + t_size + (n * t_size - (g * t_size + t_size))))
    by (f_equal; lia).
  rewrite seq_split3, !filter_app.
  rewrite (filter_none _ (seq 0 (g * t_size))); last first.
  { intros i Hi. apply elem_of_seq in Hi.
    rewrite get_cv_groups_lookup by lia. fold n.
    rewrite decide_True by lia. intros [= Hd].
    assert (i / t_size < g); [|lia].
    apply Nat.Div0.div_lt_upper_bound. lia. }
  rewrite (filter_all _ (seq (g * t_size) t_size)); last first.
  { intros i Hi. apply elem_of_seq in Hi.
    rewrite get_cv_groups_lookup by lia. fold n.
    rewrite decide_True by lia. f_equal. apply block_div. lia. }
  rewrite (filter_none _ (seq (g * t_size + t_size) _)); last first.
  { intros i Hi. apply elem_of_seq in Hi.
    rewrite get_cv_groups_lookup by lia. fold n.
    rewrite decide_True by lia. intros [= Hd].
    assert (g + 1 ≤ i / t_size); [|lia].
    apply Nat.div_le_lower_bound; lia. }
  simpl. rewrite app_nil_r. f_equal.
  destruct (decide (g = 0)) as [->|Hne].
  - apply filter_all. intros i Hi. apply elem_of_seq in Hi.
    rewrite get_cv_groups_lookup by lia. fold n.
    by rewrite decide_False by lia.
  - apply filter_none. intros i Hi. apply elem_of_seq in Hi.
    rewrite get_cv_groups_lookup by lia. fold n.
    rewrite decide_False by lia. congruence.
Qed.

(** The train set of block [g]: the samples before the block, those of
    the full blocks after it and, unless [g = 0], those past the last
    full block. *)
Lemma train_set_block N g :
  g < n_members N →
  filter (λ i, get_cv_groups N !! i ≠ Some g) (seq 0 N)
  = seq 0 (g * t_size)
    ++ seq (g * t_size + t_size) (n_members N * t_size - (g * t_size + t_size))
    ++ (if decide (g = 0) then []
        else seq (n_members N * t_size) (N - n_members N * t_size)).
Proof.
  intros Hg. pose proof t_size_pos. pose proof (n_members_le N) as Hle.
  assert (g * t_size + t_size ≤ n_members N * t_size) as Hblock
    by (replace (g * t_size + t_size) with ((g + 1) * t_size) by lia;
        apply Nat.mul_le_mono_r; lia).
  set (n := n_members N) in *.
  replace (seq 0 N) with (seq 0 (n * t_size + (N - n * t_size)))
    by (f_equal; lia).
  rewrite seq_app, filter_app. simpl.
  replace (seq 0 (n * t_size))
    with (seq 0 (g * t_size + t_size + (n * t_size - (g * t_size + t_size))))
    by (f_equal; lia).
  rewrite seq_split3, !filter_app.
  rewrite (filter_all _ (seq 0 (g * t_size))); last first.
  { intros i Hi. apply elem_of_seq in Hi.
    rewrite get_cv_groups_lookup by lia. fold n.
    rewrite decide_True by lia. intros [= Hd].
    assert (i / t_size < g); [|lia].
    apply Nat.Div0.div_lt_upper_bound. lia. }
  rewrite (filter_none _ (seq (g * t_size) t_size)); last first.
  { intros i Hi. apply elem_of_seq in Hi. intros Hno. apply Hno.
    rewrite get_cv_groups_lookup by lia. fold n.
    rewrite decide_True by lia. f_equal. apply block_div. lia. }
  rewrite (filter_all _ (seq (g * t_size + t_size) _)); last first.
  { intros i Hi. apply elem_of_seq in Hi.
    rewrite get_cv_groups_lookup by lia. fold n.
    rewrite decide_True by lia. intros [= Hd].
    assert (g + 1 ≤ i / t_size); [|lia].
    apply Nat.div_le_lower_bound; lia. }
  simpl. rewrite <-app_assoc. do 2 f_equal.
  destruct (decide (g = 0)) as [->|Hne].
  - apply filter_none. intros i Hi. apply elem_of_seq in Hi.
    intros Hno. apply Hno.
    rewrite get_cv_groups_lookup by lia. fold n.
    by rewrite decide_False by lia.
  - apply filter_all. intros i Hi. apply elem_of_seq in Hi.
    rewrite get_cv_groups_lookup by lia. fold n.
    rewrite decide_False by lia. congruence.
Qed.

(** From two full blocks on, the folds are those written from the number
    of samples. *)
Lemma get_cv_folds_by_length {A B} (X : A) (y : list B) :
  2 * t_size ≤ length y →
  get_cv X y = py.Ok (folds_by_length (length y)).
Proof.
  intros HN. rewrite get_cv_folds by done. f_equal.
  unfold folds_by_length. fold (n_members (length y)).
  apply list_eq. intros k. rewrite !list_lookup_fmap.
  destruct (seq 0 (n_members (length y)) !! k) as [g|] eqn:Hk; [|done].
  apply lookup_seq in Hk as [-> Hk]. simpl. f_equal.
  by rewrite train_set_block, test_set_block.
Qed.

Lemma test_set_length_divisible N g :
  g < n_members N → N mod t_size = 0 →
  length (filter (λ i, get_cv_groups N !! i = Some g) (seq 0 N)) = t_size.
Proof.
  intros Hg Hmod. rewrite test_set_block by done.
  assert (N - n_members N * t_size = 0) as ->.
  { unfold n_members. pose proof (Nat.div_mod_eq N t_size). lia. }
  rewrite length_app, length_seq. case_decide; simpl; lia.
Qed.

Lemma train_test_length N g :
  length (filter (λ i, get_cv_groups N !! i ≠ Some g) (seq 0 N))
  + length (filter (λ i, get_cv_groups N !! i = Some g) (seq 0 N)) = N.
Proof.
  rewrite Nat.add_comm, <-length_app.
  rewrite (filter_app_complement
             (λ i, get_cv_groups N !! i = Some g) (seq 0 N)).
  apply length_seq.
Qed.

Lemma get_cv_folds_lookup {A B} (X : A) (y : list B) :
  2 * t_size ≤ length y →
  ∃ folds, get_cv X y = py.Ok folds ∧
    length folds = n_members (length y) ∧
    ∀ g, g < n_members (length y) →
      folds !! g
      = Some (filter (λ i, get_cv_groups (length y) !! i ≠ Some g)
                (seq 0 (length y)),
              filter (λ i, get_cv_groups (length y) !! i = Some g)
                (seq 0 (length y))).
Proof.
  intros HN. eexists. split; [by apply get_cv_folds|]. split.
  - by rewrite length_fmap, length_seq.
  - intros g Hg. by rewrite list_lookup_fmap, lookup_seq_lt.
Qed.

(** ** The claims about [get_cv] *)

(** C5 (amended): for a label vector of length [N], a sample [i] inside the
    [floor(N / 1155)] full blocks has group id [floor(i / 1155)]; a sample
    past the last full block keeps the initial group id 0. *)
Theorem get_cv_group_id {B} (y : list B) (i : nat) :
  i < length y →
  (i < n_members (length y) * t_size →
   get_cv_groups (length y) !! i = Some (i / t_size)) ∧
  (n_members (length y) * t_size ≤ i →
   get_cv_groups (length y) !! i = Some 0).
Proof.
  intros Hi. split; intros Hblock; rewrite get_cv_groups_lookup by done.
  - by rewrite decide_True.
  - by rewrite decide_False by lia.
Qed.

(** C1 (amended): every sample past the last full block has group id 0,
    the value [groups] starts with, so that from two full blocks on it is
    a test index of the first fold. *)
Theorem get_cv_remainder_group {A B} (X : A) (y : list B) (i : nat) :
  n_members (length y) * t_size ≤ i < length y →
  get_cv_groups (length y) !! i = Some 0 ∧
  (2 * t_size ≤ length y →
   ∃ folds train test,
     get_cv X y = py.Ok folds ∧ folds !! 0 = Some (train, test) ∧ i ∈ test).
Proof.
  intros [Hlo Hhi].
  assert (get_cv_groups (length y) !! i = Some 0) as H0
    by (rewrite get_cv_groups_lookup by done; by rewrite decide_False by lia).
  split; [done|]. intros HN.
  destruct (get_cv_folds_lookup X y HN) as (folds & Hcv & _ & Hfold).
  pose proof t_size_pos.
  assert (0 < n_members (length y)) as Hn by (apply n_members_ge; lia).
  eexists folds, _, _. split; [done|]. split; [by apply Hfold|].
  apply list_elem_of_filter. split; [done|]. apply elem_of_seq. lia.
Qed.

(** C2 (amended): a label vector shorter than one block yields no fold:
    every sample has group 0, and iterating the generator raises
    [ValueError] because there are fewer than two groups. *)
Theorem get_cv_short_raises {A B} (X : A) (y : list B) :
  length y < t_size → get_cv X y = py.Raise py.ValueError.
Proof. intros HN. apply get_cv_few_groups. lia. Qed.

(** C3 (amended): from two full blocks on, [get_cv] yields exactly
    [floor(N / 1155)] folds, and when 1155 divides [N] every test set has
    exactly 1155 elements. *)
Theorem get_cv_fold_count {A B} (X : A) (y : list B) :
  2 * t_size ≤ length y →
  ∃ folds, get_cv X y = py.Ok folds ∧
    length folds = length y / t_size ∧
    (length y mod t_size = 0 →
     Forall (λ f : LeaveOneGroupOut.fold, length f.2 = t_size) folds).
Proof.
  intros HN. eexists. split; [by apply get_cv_folds|]. split.
  - by rewrite length_fmap, length_seq.
  - intros Hmod. apply Forall_fmap, Forall_forall. intros g Hg.
    apply elem_of_seq in Hg. simpl.
    apply test_set_length_divisible; [lia|done].
Qed.

(** C4 (amended): from two full blocks on, the folds partition the index
    set: fold [g] (folds come in increasing group order) tests exactly the
    indices of group [g] and trains on all the others, so the two lengths
    add up to [N]; test sets of different folds are disjoint; and every
    index is a test index of some fold. *)
Theorem get_cv_partition {A B} (X : A) (y : list B) :
  2 * t_size ≤ length y →
  ∃ folds, get_cv X y = py.Ok folds ∧
    length folds = n_members (length y) ∧
    (∀ g, g < n_members (length y) →
       ∃ train test, folds !! g = Some (train, test) ∧
         test = filter (λ i, get_cv_groups (length y) !! i = Some g)
                  (seq 0 (length y)) ∧
         train = filter (λ i, get_cv_groups (length y) !! i ≠ Some g)
                   (seq 0 (length y)) ∧
         length test + length train = length y) ∧
    (∀ g1 g2 f1 f2 i,
       folds !! g1 = Some f1 → folds !! g2 = Some f2 → g1 ≠ g2 →
       i ∈ f1.2 → i ∉ f2.2) ∧
    (∀ i, i < length y ↔ ∃ g f, folds !! g = Some f ∧ i ∈ f.2).
Proof.
  intros HN.
  destruct (get_cv_folds_lookup X y HN) as (folds & Hcv & Hlen & Hfold).
  exists folds. split; [done|]. split; [done|].
  assert (∀ g f, folds !! g = Some f →
            g < n_members (length y) ∧
            f.2 = filter (λ i, get_cv_groups (length y) !! i = Some g)
                    (seq 0 (length y))) as Hinv.
  { intros g f Hg.
    assert (g < n_members (length y)) as Hlt
      by (rewrite <-Hlen; by eapply lookup_lt_Some).
    split; [done|]. rewrite Hfold in Hg by done. by injection Hg as <-. }
  split; [|split].
  - intros g Hg. eexists _, _. split; [by apply Hfold|].
    split; [done|]. split; [done|].
    rewrite Nat.add_comm. apply train_test_length.
  - intros g1 g2 f1 f2 i H1 H2 Hne Hi1 Hi2.
    apply Hinv in H1 as [_ E1]. apply Hinv in H2 as [_ E2].
    rewrite E1 in Hi1. rewrite E2 in Hi2.
    apply list_elem_of_filter in Hi1 as [Hi1 _].
    apply list_elem_of_filter in Hi2 as [Hi2 _]. congruence.
  - intros i. split.
    + intros Hi. pose proof t_size_pos.
      assert (1 ≤ n_members (length y)) by (apply n_members_ge; lia).
      destruct (get_cv_groups_lookup_lt _ i Hi) as (g & Hg & Hlt).
      exists g. eexists. split; [apply Hfold; lia|]. simpl.
      apply list_elem_of_filter. split; [done|]. apply elem_of_seq. lia.
    + intros (g & f & Hg & Hi). apply Hinv in Hg as [_ E].
      rewrite E in Hi. apply list_elem_of_filter in Hi as [_ Hi].
      apply elem_of_seq in Hi. lia.
Qed.

(** C10: the folds depend only on the length of [y]: two calls on label
    vectors of one length give the same outcome, whatever [X] and the
    label values are, of whatever type; the outcome is the sequence of
    folds written from the length alone, [folds_by_length], from two full
    blocks on, and [ValueError] below. *)
Theorem get_cv_length_only {A1 A2 B1 B2}
    (X1 : A1) (y1 : list B1) (X2 : A2) (y2 : list B2) :
  length y1 = length y2 →
  get_cv X1 y1 = get_cv X2 y2 ∧
  get_cv X1 y1
  = if decide (length y1 < 2 * t_size) then py.Raise py.ValueError
    else py.Ok (folds_by_length (length y1)).
Proof.
  intros Hlen.
  assert (∀ A B (X : A) (y : list B),
            get_cv X y
            = if decide (length y < 2 * t_size) then py.Raise py.ValueError
              else py.Ok (folds_by_length (length y))) as Hform.
  { intros A B X y. case_decide.
    - by apply get_cv_few_groups.
    - apply get_cv_folds_by_length. lia. }
  split; [|apply Hform]. by rewrite (Hform _ _ X1 y1), (Hform _ _ X2 y2), Hlen.
Qed.

(** ** Further properties of [get_cv] *)

(** X1: below two full blocks, also with exactly one block, iterating
    the generator raises [ValueError]: all samples are in group 0. *)
Theorem get_cv_single_group_raises {A B} (X : A) (y : list B) :
  length y < 2 * t_size → get_cv X y = py.Raise py.ValueError.
Proof. apply get_cv_few_groups. Qed.

(** X2: from two full blocks on, the test set of fold [g] is block [g],
    the indices [g * 1155, ..., g * 1155 + 1154]; the first fold also
    tests the samples past the last full block. *)
Theorem get_cv_test_blocks {A B} (X : A) (y : list B) :
  2 * t_size ≤ length y →
  ∃ folds, get_cv X y = py.Ok folds ∧
    ∀ g, g < n_members (length y) →
      ∃ train,
        folds !! g
        = Some (train,
                seq (g * t_size) t_size
                ++ (if decide (g = 0)
                    then seq (n_members (length y) * t_size)
                           (length y - n_members (length y) * t_size)
                    else [])).
Proof.
  intros HN.
  destruct (get_cv_folds_lookup X y HN) as (folds & Hcv & _ & Hfold).
  exists folds. split; [done|]. intros g Hg.
  eexists. rewrite Hfold by done. by rewrite test_set_block.
Qed.

(** ** Concrete runs of [get_cv] *)

#[local] Transparent t_size.

(** C1, as stated, fails for 2311 samples: the one sample past the two
    full blocks has group id 0 and not [floor(2311 / 1155) - 1 = 1]. *)
Lemma get_cv_remainder_group_counterexample :
  2311 mod t_size ≠ 0 ∧
  2311 / t_size * t_size ≤ 2310 < 2311 ∧
  get_cv_groups 2311 !! 2310 = Some 0 ∧
  get_cv_groups 2311 !! 2310 ≠ Some (2311 / t_size - 1).
Proof. vm_compute. repeat split; (lia || congruence). Qed.

Lemma get_cv_remainder_group_witness :
  get_cv_groups (length (replicate 2311 0)) !! 2310 = Some 0.
Proof.
  refine (proj1 (get_cv_remainder_group () (replicate 2311 0) 2310 _)).
  vm_compute. lia.
Defined.

(** C5, as stated, fails for 1156 samples: the last sample has group id 0
    and not [floor(1155 / 1155) = 1]. *)
Lemma get_cv_group_id_counterexample :
  1155 < 1156 ∧
  get_cv_groups 1156 !! 1155 = Some 0 ∧
  get_cv_groups 1156 !! 1155 ≠ Some (1155 / t_size).
Proof. vm_compute. repeat split; (lia || congruence). Qed.

Lemma get_cv_group_id_witness :
  (1155 < n_members (length (replicate 2310 0)) * t_size →
   get_cv_groups (length (replicate 2310 0)) !! 1155 = Some (1155 / t_size)) ∧
  (n_members (length (replicate 2310 0)) * t_size ≤ 1155 →
   get_cv_groups (length (replicate 2310 0)) !! 1155 = Some 0).
Proof.
  apply (get_cv_group_id (replicate 2310 0) 1155).
  vm_compute. lia.
Defined.

(** C2, as stated, fails for a single sample: iterating the generator
    raises [ValueError] instead of ending after zero folds. *)
Lemma get_cv_short_counterexample :
  length [0] < t_size ∧
  get_cv () [0] = py.Raise py.ValueError ∧
  get_cv () [0] ≠ py.Ok [].
Proof. vm_compute. repeat split; (lia || congruence). Qed.

Lemma get_cv_short_raises_witness :
  get_cv () [0; 1; 0] = py.Raise py.ValueError.
Proof.
  apply (get_cv_short_raises () [0; 1; 0]).
  vm_compute. lia.
Defined.

(** C3, as stated, fails for a single sample: no sequence of
    [floor(1 / 1155) = 0] folds is produced, the iteration raises. *)
Lemma get_cv_fold_count_counterexample :
  ¬ ∃ folds, get_cv () [0] = py.Ok folds ∧ length folds = 1 / t_size.
Proof. intros (folds & Hcv & _). vm_compute in Hcv. congruence. Qed.

Lemma get_cv_fold_count_witness :
  ∃ folds, get_cv () (replicate 2310 0) = py.Ok folds ∧
    length folds = length (replicate 2310 0) / t_size ∧
    (length (replicate 2310 0) mod t_size = 0 →
     Forall (λ f : LeaveOneGroupOut.fold, length f.2 = t_size) folds).
Proof.
  apply (get_cv_fold_count () (replicate 2310 0)).
  vm_compute. lia.
Defined.

(** C4, as stated, fails for exactly one block of 1155 samples: there is a
    single group, and the iteration raises instead of yielding the one
    fold that would cover the index set. *)
Lemma get_cv_partition_counterexample :
  1155 ≤ length (replicate 1155 0) ∧
  get_cv () (replicate 1155 0) = py.Raise py.ValueError.
Proof. vm_compute. split; [lia|done]. Qed.

Lemma get_cv_partition_witness :
  ∃ folds, get_cv () (replicate 2311 0) = py.Ok folds ∧ length folds = 2.
Proof.
  destruct (get_cv_partition () (replicate 2311 0)) as (folds & H & Hl & _).
  - vm_compute. lia.
  - exists folds. split; [exact H|exact Hl].
Defined.

Lemma get_cv_single_group_raises_witness :
  get_cv () (replicate 1155 0) = py.Raise py.ValueError.
Proof.
  apply (get_cv_single_group_raises () (replicate 1155 0)).
  vm_compute. lia.
Defined.

Lemma get_cv_test_blocks_witness :
  ∃ folds, get_cv () (replicate 2311 0) = py.Ok folds ∧
    ∃ train, folds !! 0 = Some (train, seq 0 1155 ++ [2310]).
Proof.
  destruct (get_cv_test_blocks () (replicate 2311 0)) as (folds & H & Hg).
  - vm_compute. lia.
  - exists folds. split; [exact H|].
    destruct (Hg 0) as [train Htrain].
    + vm_compute. lia.
    + exists train. exact Htrain.
Defined.

Lemma get_cv_length_only_witness :
  get_cv () (replicate 2310 0%Z) = get_cv [5; 7] (replicate 2310 true) ∧
  ∃ folds, get_cv () (replicate 2310 0%Z) = py.Ok folds ∧ length folds = 2.
Proof.
  destruct (get_cv_length_only () (replicate 2310 0%Z)
              [5; 7] (replicate 2310 true)) as [Hsame Hfolds].
  - by rewrite !length_replicate.
  - split; [exact Hsame|]. exists (folds_by_length 2310). split.
    + rewrite Hfolds, length_replicate.
      apply decide_False. unfold t_size. lia.
    + reflexivity.
Defined.

(** Two full blocks and one more sample: the first fold tests 1156
    indices, the last of them index 2310; the second fold tests the 1155
    indices of the second block. *)
Example get_cv_two_blocks_plus_one :
  match get_cv () (replicate 2311 0) with
  | py.Ok folds => (λ f, (length f.1, length f.2, last f.2)) <$> folds
  | py.Raise _ => []
  end
  = [(1155, 1156, Some 2310); (1156, 1155, Some 2309)].
Proof. vm_compute. reflexivity. Qed.

(** * Properties of the data loader *)

(** ** The loader leaves the files as they are *)

Lemma reads_only_ret {F A} (a : A) : reads_only (@py.io_ret F A a).
Proof. intros w. split; [done|]. by intros w' _. Qed.

Lemma reads_only_lift {F A} (r : py.result A) : reads_only (@py.lift F A r).
Proof. intros w. split; [done|]. by intros w' _. Qed.

Lemma reads_only_print {F} (line : string) : reads_only (@py.print F line).
Proof. intros w. split; [done|]. by intros w' _. Qed.

Lemma reads_only_bind {F A B} (m : py.io F A) (k : A → py.io F B) :
  reads_only m → (∀ a, reads_only (k a)) → reads_only (py.io_bind m k).
Proof.
  intros Hm Hk w. unfold py.io_bind.
  destruct (Hm w) as [Hfiles Hdet]. split.
  - destruct (m w) as [[a|e] w1]; simpl in *; [|done].
    destruct (Hk a w1) as [Hfiles' _]. congruence.
  - intros w' Hw'. specialize (Hdet w' Hw').
    destruct (Hm w') as [Hfiles' _].
    destruct (m w) as [[a|e] w1], (m w') as [[a'|e'] w1'];
      simpl in *; try congruence.
    injection Hdet as ->.
    destruct (Hk a w1) as [_ Hdetk]. apply Hdetk. congruence.
Qed.

Lemma reads_only_for_each {F A S} (body : S → A → py.io F S) l s :
  (∀ s x, reads_only (body s x)) → reads_only (py.for_each body l s).
Proof.
  intros Hbody. revert s. induction l as [|x l IH]; intros s; simpl.
  - apply reads_only_ret.
  - apply reads_only_bind; [apply Hbody|apply IH].
Qed.

Lemma reads_only_open_dataset {V} (path : string) :
  reads_only (@open_dataset V path).
Proof.
  intros w. unfold open_dataset. split.
  - by destruct (py.files w !! path) as [[?|?]|].
  - intros w' ->. by destruct (py.files w !! path) as [[?|?]|].
Qed.

Lemma reads_only_load {V} (ds : opened V) : reads_only (load ds).
Proof. apply reads_only_ret. Qed.

Lemma reads_only_close {V} (ds : opened V) : reads_only (close ds).
Proof. intros w. split; [done|]. by intros w' _. Qed.

Lemma reads_only_read_csv {V} (path index_col : string) :
  reads_only (@read_csv V path index_col).
Proof.
  intros w. unfold read_csv. split.
  - by destruct (py.files w !! path) as [[?|?]|].
  - intros w' ->. by destruct (py.files w !! path) as [[?|?]|].
Qed.

Lemma reads_only_read_data_step {V} path f_prefix
    (X_coll : list (xr.DataArray V)) data_var :
  reads_only (_read_data_step path f_prefix X_coll data_var).
Proof.
  unfold _read_data_step.
  repeat (apply reads_only_bind; [|intros ?]);
    auto using reads_only_print, reads_only_open_dataset, reads_only_load,
      reads_only_close, reads_only_lift, reads_only_ret.
Qed.

Lemma reads_only_read_data {V} (nan : V) path f_prefix :
  reads_only (_read_data nan path f_prefix).
Proof.
  unfold _read_data.
  apply reads_only_bind.
  { apply reads_only_for_each. intros s x. apply reads_only_read_data_step. }
  intros X_coll.
  repeat (apply reads_only_bind; [|intros ?]);
    auto using reads_only_read_csv, reads_only_lift, reads_only_ret.
Qed.

Lemma reads_only_read_data_grids {V} (nan : V) path f_prefix :
  reads_only (_read_data_grids nan path f_prefix).
Proof.
  unfold _read_data_grids. apply reads_only_bind.
  - apply reads_only_for_each. intros s x. apply reads_only_read_data_step.
  - intros X_coll. apply reads_only_lift.
Qed.

Lemma reads_only_read_data_grids_files {V} (nan : V) path f_prefix
    (w : py.world (file V)) :
  py.files (_read_data_grids nan path f_prefix w).2 = py.files w.
Proof. apply reads_only_read_data_grids. Qed.

(** ** One gridded file *)

(** Stacking an array whose two dimensions are there, whose new name is
    free and whose other dimensions are not empty. *)
Lemma stack_defined {V} (da : xr.DataArray V) new d1 d2 ix1 ix2 :
  xr.dim_index (xr.variable da) d1 = Some ix1 →
  xr.dim_index (xr.variable da) d2 = Some ix2 →
  new ∉ xr.dim_names (xr.variable da) →
  Forall (λ p : string * xr.index, 0 < xr.size p.2)
    (filter (λ p : string * xr.index, p.1 ≠ d1 ∧ p.1 ≠ d2)
       (xr.dims (xr.variable da))) →
  ∃ st, xr.stack da new d1 d2 = py.Ok st ∧
    st = (let v := xr.variable da in
          let others :=
            filter (λ p : string * xr.index, p.1 ≠ d1 ∧ p.1 ≠ d2) (xr.dims v) in
          let new_names := others.*1 ++ [new] in
          {| xr.name := xr.name da;
             xr.variable :=
               {| xr.dims :=
                    others
                    ++ [(new, xr.Index (l1 ← xr.level_labels ix1;
                                        l2 ← xr.level_labels ix2; [l1 ++ l2]))];
                  xr.data := λ idx,
                    xr.data v ((λ d,
                      if decide (d = d1)
                      then xr.at_dim new_names idx new / xr.size ix2
                      else if decide (d = d2)
                      then xr.at_dim new_names idx new `mod` xr.size ix2
                      else xr.at_dim new_names idx d) <$> xr.dim_names v) |} |}).
Proof.
  intros H1 H2 Hnew Hothers. unfold xr.stack. rewrite H1, H2.
  rewrite bool_decide_eq_false_2 by done.
  rewrite bool_decide_eq_false_2.
  - eexists. split; reflexivity.
  - intros [p [Hp Hz]]%Exists_exists.
    rewrite Forall_forall in Hothers. specialize (Hothers p Hp). lia.
Qed.

(** Stacking an array one of whose other dimensions is empty. *)
Lemma stack_empty {V} (da : xr.DataArray V) new d1 d2 ix1 ix2 :
  xr.dim_index (xr.variable da) d1 = Some ix1 →
  xr.dim_index (xr.variable da) d2 = Some ix2 →
  Exists (λ p : string * xr.index, xr.size p.2 = 0)
    (filter (λ p : string * xr.index, p.1 ≠ d1 ∧ p.1 ≠ d2)
       (xr.dims (xr.variable da))) →
  xr.stack da new d1 d2 = py.Raise py.ValueError.
Proof.
  intros H1 H2 Hothers. unfold xr.stack. rewrite H1, H2.
  rewrite (bool_decide_eq_true_2 (Exists _ _)) by done.
  by rewrite orb_true_r.
Qed.

(** A readable file whose variable has the dimensions
    [(ens, time, lat, lon)], [lat] and [lon] not empty, gives an array
    over [(enstime, lat, lon)]: sample [s] is time step [s mod n_time] of
    member [s / n_time].  The pass prints the path and holds no file open
    when it ends. *)
Lemma _read_data_step_readable {V} path f_prefix
    (X_coll : list (xr.DataArray V)) data_var
    (w : py.world (file V)) ds v ix_ens ix_time ix_lat ix_lon :
  py.files w !! nc_file path f_prefix data_var = Some (NetCDF ds) →
  ds !! data_var = Some v →
  xr.dims v = [("ens", ix_ens); ("time", ix_time);
               ("lat", ix_lat); ("lon", ix_lon)] →
  0 < xr.size ix_lat → 0 < xr.size ix_lon →
  ∃ da,
    _read_data_step path f_prefix X_coll data_var w
    = (py.Ok (X_coll ++ [da]),
       py.World (py.files w)
         (py.stdout w ++ [nc_file path f_prefix data_var])
         (py.open_files w)) ∧
    xr.name da = data_var ∧
    xr.dims (xr.variable da)
    = [("enstime",
        xr.Index (l1 ← xr.level_labels ix_ens;
                  l2 ← xr.level_labels ix_time; [l1 ++ l2]));
       ("lat", ix_lat); ("lon", ix_lon)] ∧
    ∀ s la lo,
      xr.data (xr.variable da) [s; la; lo]
      = xr.data v [s / xr.size ix_time; s `mod` xr.size ix_time; la; lo].
Proof.
  intros Hfile Hvar Hdims Hlat Hlon. destruct v as [dms dat].
  simpl in Hdims. subst dms.
  unfold _read_data_step, py.io_bind, py.print, open_dataset, load, close.
  simpl. rewrite Hfile. unfold py.io_ret, py.lift, xr.getitem. simpl.
  rewrite Hvar.
  destruct (stack_defined
              {| xr.name := data_var;
                 xr.variable :=
                   {| xr.dims := [("ens", ix_ens); ("time", ix_time);
                                  ("lat", ix_lat); ("lon", ix_lon)];
                      xr.data := dat |} |}
              "enstime" "ens" "time" ix_ens ix_time)
    as (st & -> & ->); [done|done| |repeat constructor; done|].
  { apply (bool_decide_unpack (_ ∉ _)). vm_compute. exact I. }
  rewrite decide_True by done.
  eexists. split; [reflexivity|]. split; [reflexivity|].
  split; [reflexivity|]. intros s la lo. reflexivity.
Qed.

(** The same file with an empty [lat] or [lon]: the pass raises
    [ValueError]. *)
Lemma _read_data_step_empty {V} path f_prefix
    (X_coll : list (xr.DataArray V)) data_var
    (w : py.world (file V)) ds v ix_ens ix_time ix_lat ix_lon :
  py.files w !! nc_file path f_prefix data_var = Some (NetCDF ds) →
  ds !! data_var = Some v →
  xr.dims v = [("ens", ix_ens); ("time", ix_time);
               ("lat", ix_lat); ("lon", ix_lon)] →
  ¬ (0 < xr.size ix_lat ∧ 0 < xr.size ix_lon) →
  (_read_data_step path f_prefix X_coll data_var w).1
  = py.Raise py.ValueError.
Proof.
  intros Hfile Hvar Hdims Hempty. destruct v as [dms dat].
  simpl in Hdims. subst dms.
  unfold _read_data_step, py.io_bind, py.print, open_dataset, load, close.
  simpl. rewrite Hfile. unfold py.io_ret, py.lift, xr.getitem. simpl.
  rewrite Hvar.
  rewrite (stack_empty _ "enstime" "ens" "time" ix_ens ix_time); [done..|].
  change (Exists (λ p : string * xr.index, xr.size p.2 = 0)
            [("lat", ix_lat); ("lon", ix_lon)]).
  rewrite !Exists_cons, Exists_nil. simpl. lia.
Qed.

(** [_read_data] runs its gridded half, then its label half. *)
Lemma _read_data_halves {V} (nan : V) path f_prefix (w : py.world (file V)) :
  _read_data nan path f_prefix w
  = (X_ds <<- _read_data_grids nan path f_prefix ;;
     y_array <<- _read_data_labels path f_prefix ;;
     py.io_ret (X_ds, y_array)) w.
Proof.
  unfold _read_data, _read_data_grids, _read_data_labels, py.io_bind, py.lift.
  destruct (py.for_each _ _ _ w) as [[X_coll|e] w1]; [|done].
  destruct (xr.merge nan X_coll) as [X_ds|e]; [|done].
  destruct (read_csv _ _ w1) as [[y|e] w2]; [|done].
  destruct (py.comprehension _ _) as [cols|e]; [|done].
  by destruct (concatenate cols).
Qed.

(** ** The label vector *)

Lemma NoDup_fst_functional {A B} (l : list (A * B)) x y1 y2 :
  NoDup l.*1 → (x, y1) ∈ l → (x, y2) ∈ l → y1 = y2.
Proof.
  intros Hnd [i Hi]%list_elem_of_lookup [j Hj]%list_elem_of_lookup.
  assert (i = j) as ->.
  { apply (NoDup_lookup l.*1 i j x); [done|..];
      rewrite list_lookup_fmap; [by rewrite Hi|by rewrite Hj]. }
  congruence.
Qed.

Lemma getitem_column {V} (df : pd.DataFrame V) c cells :
  NoDup (pd.columns df) → (c, cells) ∈ pd.column_data df →
  pd.getitem df c = py.Ok cells.
Proof.
  intros Hnd Hin. unfold pd.getitem.
  destruct (list_find_elem_of (λ p : string * list V, p.1 = c)
              (pd.column_data df) (c, cells)) as [[i p] Hfind]; [done..|].
  rewrite Hfind. apply list_find_Some in Hfind as (Hp & Hc & _).
  apply list_elem_of_lookup_2 in Hp. destruct p as [c' cells'].
  simpl in *. subst c'. f_equal.
  by apply (NoDup_fst_functional (pd.column_data df) c).
Qed.

Lemma comprehension_getitem {V} (df : pd.DataFrame V) cols :
  NoDup (pd.columns df) → (∀ p, p ∈ cols → p ∈ pd.column_data df) →
  py.comprehension (pd.getitem df) cols.*1 = py.Ok cols.*2.
Proof.
  intros Hnd. induction cols as [|[c cells] cols IH]; intros Hsub; [done|].
  rewrite !fmap_cons. cbn [py.comprehension fst snd].
  rewrite (getitem_column df c cells) by (done || apply Hsub; by left).
  cbn [py.bind]. rewrite IH by (intros p Hp; apply Hsub; by right). done.
Qed.

Lemma delete_find_filter {V} (t : pd.table V) c i p :
  NoDup t.*1 →
  list_find (λ p : string * list V, p.1 = c) t = Some (i, p) →
  delete i t = filter (λ p : string * list V, p.1 ≠ c) t.
Proof.
  revert i. induction t as [|q t IH]; intros i Hnd Hfind; [done|].
  rewrite fmap_cons in Hnd. apply NoDup_cons in Hnd as [Hq Hnd].
  simpl in Hfind. destruct (decide (q.1 = c)) as [Hc|Hc].
  - injection Hfind as <- <-.
    rewrite (filter_cons_False (λ p : string * list V, p.1 ≠ c))
      by naive_solver.
    simpl. symmetry. apply filter_all. intros p' Hp' Heq. apply Hq.
    rewrite Hc, <-Heq. by apply list_elem_of_fmap_2.
  - destruct (list_find _ t) as [[i' p']|] eqn:Hfind'; [|done].
    injection Hfind as <- <-.
    rewrite (filter_cons_True (λ p : string * list V, p.1 ≠ c)) by done.
    simpl. f_equal. by apply IH.
Qed.

(** The frame of a table with distinct column names: the data columns are
    the columns other than the index column, in the order of the file. *)
Lemma set_index_data {V} (t : pd.table V) c :
  NoDup t.*1 → c ∈ t.*1 →
  ∃ df, pd.set_index t c = py.Ok df ∧
    pd.column_data df = filter (λ p : string * list V, p.1 ≠ c) t.
Proof.
  intros Hnd Hc. unfold pd.set_index.
  apply list_elem_of_fmap in Hc as ([c' cells] & Hc & Hin).
  simpl in Hc. subst c'.
  destruct (list_find_elem_of (λ p : string * list V, p.1 = c)
              t (c, cells)) as [[i p] Hfind]; [done..|].
  rewrite Hfind. eexists. split; [done|]. simpl.
  by eapply delete_find_filter.
Qed.

Lemma NoDup_filter_fst {V} (t : pd.table V) c :
  NoDup t.*1 → NoDup (filter (λ p : string * list V, p.1 ≠ c) t).*1.
Proof.
  intros Hnd. apply (sublist_NoDup _ t.*1); [done|].
  apply fmap_sublist, sublist_filter.
Qed.

(** The label half on a table with distinct column names, an index column
    [Year] and at least one data column. *)
Lemma _read_data_labels_columns {V} path f_prefix
    (w : py.world (file V)) (t : pd.table V) :
  py.files w !! csv_file path f_prefix = Some (CSV t) →
  NoDup t.*1 → "Year" ∈ t.*1 →
  filter (λ p : string * list V, p.1 ≠ "Year") t ≠ [] →
  _read_data_labels path f_prefix w
  = (py.Ok (concat (filter (λ p : string * list V, p.1 ≠ "Year") t).*2), w).
Proof.
  intros Hfile Hnd Hyear Hdata.
  unfold _read_data_labels, py.io_bind, read_csv, py.lift. rewrite Hfile.
  destruct (set_index_data t "Year" Hnd Hyear) as (df & -> & Hcols).
  unfold pd.columns.
  rewrite comprehension_getitem; [| |done].
  - rewrite Hcols. unfold concatenate.
    destruct (filter _ t) as [|p l] eqn:Hf; [done|]. done.
  - unfold pd.columns. rewrite Hcols. by apply NoDup_filter_fst.
Qed.

(** ** Alignment in [xr.merge] *)

Lemma remove_dups_constant {A} `{EqDecision A} (l : list A) x :
  (∀ y, y ∈ l → y = x) → length (remove_dups l) ≤ 1.
Proof.
  intros Hl. pose proof (NoDup_remove_dups l) as Hnd.
  assert (∀ y, y ∈ remove_dups l → y = x) as Hu
    by (intros y Hy; apply Hl; by apply elem_of_remove_dups).
  destruct (remove_dups l) as [|y [|y' l']]; simpl; [lia..|].
  exfalso. apply NoDup_cons in Hnd as [Hy _]. apply Hy.
  rewrite (Hu y), (Hu y') by set_solver. set_solver.
Qed.

Lemma remove_dups_two {A} `{EqDecision A} (l : list A) x y :
  x ∈ l → y ∈ l → x ≠ y → 1 < length (remove_dups l).
Proof.
  intros Hx Hy Hne.
  assert ([x; y] ⊆+ remove_dups l) as Hsub.
  { apply NoDup_submseteq.
    - apply NoDup_cons. split; [|apply NoDup_singleton].
      by intros ->%list_elem_of_singleton.
    - intros z Hz. apply elem_of_remove_dups.
      apply elem_of_cons in Hz as [->|Hz]; [done|].
      by apply list_elem_of_singleton in Hz as ->. }
  apply submseteq_length in Hsub. simpl in Hsub. lia.
Qed.

Lemma labelled_elem ixs ls : ls ∈ xr.labelled ixs ↔ xr.Index ls ∈ ixs.
Proof.
  unfold xr.labelled. rewrite list_elem_of_omap. split.
  - intros ([n|ls'] & Hin & Heq); [done|]. by injection Heq as ->.
  - intros Hin. by exists (xr.Index ls).
Qed.

Lemma unlabelled_sizes_elem ixs n :
  n ∈ xr.unlabelled_sizes ixs ↔ xr.RangeDim n ∈ ixs.
Proof.
  unfold xr.unlabelled_sizes. rewrite list_elem_of_omap. split.
  - intros ([n'|ls] & Hin & Heq); [|done]. by injection Heq as ->.
  - intros Hin. by exists (xr.RangeDim n).
Qed.

(** Variables that agree on the index of a dimension have that index as
    the joined one. *)
Lemma joined_index_same ixs ix :
  ixs ≠ [] → (∀ ix', ix' ∈ ixs → ix' = ix) →
  xr.joined_index ixs
  = match ix with xr.Index ls => Some ls | xr.RangeDim _ => None end.
Proof.
  intros Hne Hall. unfold xr.joined_index.
  destruct (xr.labelled ixs) as [|ls rest] eqn:Hlab.
  - destruct ix as [n|ls]; [done|]. destruct ixs as [|ix' ixs]; [done|].
    assert (ix' = xr.Index ls) as -> by (apply Hall; by left).
    simpl in Hlab. done.
  - assert (∀ ls', ls' ∈ ls :: rest → xr.Index ls' = ix) as Hls.
    { intros ls' Hin. apply Hall. apply labelled_elem. by rewrite Hlab. }
    destruct ix as [n|ls0]; [by specialize (Hls ls (list_elem_of_here _ _))|].
    assert (ls = ls0) as ->
      by (specialize (Hls ls (list_elem_of_here _ _)); congruence).
    rewrite bool_decide_eq_true_2; [done|].
    apply Forall_forall. intros ls' Hin.
    specialize (Hls ls' (list_elem_of_further _ _ _ Hin)). congruence.
Qed.

Lemma dim_conflict_same ixs ix :
  (∀ ix', ix' ∈ ixs → ix' = ix) → xr.dim_conflict ixs = false.
Proof.
  intros Hall. destruct (decide (ixs = [])) as [->|Hne]; [done|].
  unfold xr.dim_conflict. rewrite (joined_index_same ixs ix) by done.
  apply orb_false_intro.
  - apply bool_decide_eq_false_2.
    enough (length (remove_dups
              (xr.unlabelled_sizes ixs
               ++ match
                    match ix with
                    | xr.RangeDim _ => None
                    | xr.Index ls => Some ls
                    end
                  with
                  | Some j => [length j]
                  | None => []
                  end)) ≤ 1) by lia.
    apply (remove_dups_constant _ (xr.size ix)). intros n Hn.
    apply elem_of_app in Hn as [Hn|Hn].
    + apply unlabelled_sizes_elem, Hall in Hn. by subst ix.
    + destruct ix as [m|ls]; [by apply elem_of_nil in Hn|].
      by apply list_elem_of_singleton in Hn.
  - apply bool_decide_eq_false_2. rewrite Exists_exists.
    intros (ls & Hin & Hjoin & _). apply labelled_elem, Hall in Hin.
    by subst ix.
Qed.

(** Two variables with different sizes along a dimension without labels
    cannot be aligned. *)
Lemma dim_conflict_sizes ixs n1 n2 :
  xr.RangeDim n1 ∈ ixs → xr.RangeDim n2 ∈ ixs → n1 ≠ n2 →
  xr.dim_conflict ixs = true.
Proof.
  intros H1 H2 Hne. unfold xr.dim_conflict. apply orb_true_intro. left.
  apply bool_decide_eq_true_2.
  apply (remove_dups_two _ n1 n2); [..|done];
    apply elem_of_app; left; by apply unlabelled_sizes_elem.
Qed.

Lemma dim_index_Some {V} (v : xr.Var V) d ix :
  xr.dim_index v d = Some ix → (d, ix) ∈ xr.dims v.
Proof.
  unfold xr.dim_index. intros Hix.
  destruct (list_find _ _) as [[i [d' ix']]|] eqn:Hfind; [|done].
  injection Hix as ->. apply list_find_Some in Hfind as (Hl & Hd & _).
  simpl in Hd. subst d'. by eapply list_elem_of_lookup_2.
Qed.

Lemma dim_index_elem {V} (v : xr.Var V) d ix :
  NoDup (xr.dim_names v) → (d, ix) ∈ xr.dims v → xr.dim_index v d = Some ix.
Proof.
  intros Hnd Hin. unfold xr.dim_index.
  destruct (list_find_elem_of (λ p : string * xr.index, p.1 = d)
              (xr.dims v) (d, ix)) as [[i [d' ix']] Hfind]; [done..|].
  rewrite Hfind. simpl. f_equal.
  apply list_find_Some in Hfind as (Hl & Hd & _). simpl in Hd. subst d'.
  apply list_elem_of_lookup_2 in Hl.
  by apply (NoDup_fst_functional (xr.dims v) d).
Qed.

Lemma merge_conflict {V} (nan : V) (objects : list (xr.DataArray V))
    da1 da2 d n1 n2 :
  da1 ∈ objects → da2 ∈ objects →
  xr.dim_index (xr.variable da1) d = Some (xr.RangeDim n1) →
  xr.dim_index (xr.variable da2) d = Some (xr.RangeDim n2) →
  n1 ≠ n2 →
  xr.merge nan objects = py.Raise py.ValueError.
Proof.
  intros Hin1 Hin2 Hd1 Hd2 Hne. unfold xr.merge.
  rewrite bool_decide_eq_true_2; [done|].
  apply Exists_exists. exists d. split.
  - apply elem_of_remove_dups, list_elem_of_bind.
    exists (xr.variable da1). split; [|by apply list_elem_of_fmap_2].
    apply dim_index_Some in Hd1. unfold xr.dim_names.
    by apply (list_elem_of_fmap_2 fst) in Hd1.
  - apply (dim_conflict_sizes _ n1 n2); [..|done];
      unfold xr.dim_indexes; apply list_elem_of_omap.
    + exists (xr.variable da1). split; [by apply list_elem_of_fmap_2|done].
    + exists (xr.variable da2). split; [by apply list_elem_of_fmap_2|done].
Qed.

Lemma dim_index_dims {V} (v v' : xr.Var V) d :
  xr.dims v' = xr.dims v → xr.dim_index v' d = xr.dim_index v d.
Proof. unfold xr.dim_index. by intros ->. Qed.

Lemma dim_indexes_same {V} (vs : list (xr.Var V)) (v : xr.Var V) d ix :
  (∀ v', v' ∈ vs → xr.dims v' = xr.dims v) →
  ix ∈ xr.dim_indexes vs d → xr.dim_index v d = Some ix.
Proof.
  intros Hall (v' & Hin & Hix)%list_elem_of_omap.
  by rewrite <-(dim_index_dims v v') by by apply Hall.
Qed.

Lemma fmap_fixed {A} (f : A → A) (l : list A) :
  (∀ x, x ∈ l → f x = x) → f <$> l = l.
Proof.
  intros Hf. rewrite <-(list_fmap_id l) at 2.
  apply list_fmap_ext. intros i x Hx. apply Hf.
  by eapply list_elem_of_lookup_2.
Qed.

(** A variable whose indexes all the variables share is left as it is. *)
Lemma reindex_same {V} (nan : V) (vs : list (xr.Var V)) (v : xr.Var V) :
  vs ≠ [] → (∀ v', v' ∈ vs → xr.dims v' = xr.dims v) →
  NoDup (xr.dim_names v) → xr.reindex nan vs v = v.
Proof.
  intros Hne Hall Hnd. unfold xr.reindex.
  rewrite decide_True; [done|].
  apply fmap_fixed. intros [d ix] Hin. simpl.
  assert (xr.dim_index v d = Some ix) as Hix by by apply dim_index_elem.
  rewrite (joined_index_same _ ix).
  - unfold xr.reindexed_dim. simpl. by destruct ix.
  - destruct vs as [|v0 vs]; [done|]. unfold xr.dim_indexes. simpl.
    rewrite (dim_index_dims v v0) by (apply Hall; by left).
    by rewrite Hix.
  - intros ix' Hix'. apply (dim_indexes_same vs v d ix') in Hix'; [|done].
    congruence.
Qed.

(** Arrays over the same dimensions and indexes merge without change. *)
Lemma merge_aligned {V} (nan : V) (objects : list (xr.DataArray V)) D :
  (∀ da, da ∈ objects → xr.dims (xr.variable da) = D) →
  NoDup D.*1 →
  xr.merge nan objects = xr.to_dataset objects ∅.
Proof.
  intros Hall Hnd. unfold xr.merge.
  destruct objects as [|da0 objects]; [done|].
  set (objs := da0 :: objects) in *.
  assert (∀ v', v' ∈ xr.variable <$> objs →
            xr.dims v' = xr.dims (xr.variable da0)) as Hvs.
  { intros v' (da & -> & Hin)%list_elem_of_fmap.
    rewrite (Hall da Hin). symmetry. apply Hall. by left. }
  rewrite bool_decide_eq_false_2.
  - f_equal. apply fmap_fixed. intros [nm v] Hin. simpl. f_equal.
    apply reindex_same; [done| |].
    + intros v' Hv'. rewrite (Hvs v' Hv'). symmetry.
      apply (Hvs v). by apply (list_elem_of_fmap_2 xr.variable) in Hin.
    + unfold xr.dim_names. by rewrite <-(Hall _ Hin) in Hnd.
  - rewrite Exists_exists. intros (d & _ & Hconf).
    destruct (xr.dim_index (xr.variable da0) d) as [ix|] eqn:Hix.
    + rewrite (dim_conflict_same _ ix) in Hconf; [done|].
      intros ix' Hix'.
      apply (dim_indexes_same _ (xr.variable da0)) in Hix'; [|done].
      congruence.
    + rewrite (dim_conflict_same _ (xr.RangeDim 0)) in Hconf; [done|].
      intros ix' Hix'.
      apply (dim_indexes_same _ (xr.variable da0)) in Hix'; [|done].
      congruence.
Qed.

(** ** The gridded half on readable files *)

Lemma _read_data_step_files {V} path f_prefix
    (X_coll : list (xr.DataArray V)) data_var (w : py.world (file V)) :
  py.files (_read_data_step path f_prefix X_coll data_var w).2 = py.files w.
Proof. apply reads_only_read_data_step. Qed.

Lemma _read_data_step_gridded {V} path f_prefix
    (X_coll : list (xr.DataArray V)) data_var
    (w : py.world (file V)) v ix_ens ix_time ix_lat ix_lon :
  gridded_file w path f_prefix data_var v ix_ens ix_time ix_lat ix_lon →
  0 < xr.size ix_lat → 0 < xr.size ix_lon →
  ∃ da w',
    _read_data_step path f_prefix X_coll data_var w
    = (py.Ok (X_coll ++ [da]), w') ∧
    py.files w' = py.files w ∧
    xr.name da = data_var ∧
    xr.dims (xr.variable da)
    = [("enstime", enstime_index ix_ens ix_time);
       ("lat", ix_lat); ("lon", ix_lon)] ∧
    ∀ s la lo,
      xr.data (xr.variable da) [s; la; lo]
      = xr.data v [s / xr.size ix_time; s `mod` xr.size ix_time; la; lo].
Proof.
  intros (ds & Hfile & Hvar & Hdims) Hlat Hlon.
  destruct (_read_data_step_readable path f_prefix X_coll data_var w ds v
              ix_ens ix_time ix_lat ix_lon Hfile Hvar Hdims Hlat Hlon)
    as (da & Hstep & Hname & Hd & Hdata).
  by exists da, (py.World (py.files w)
                   (py.stdout w ++ [nc_file path f_prefix data_var])
                   (py.open_files w)).
Qed.

Lemma _read_data_step_gridded_empty {V} path f_prefix
    (X_coll : list (xr.DataArray V)) data_var
    (w : py.world (file V)) v ix_ens ix_time ix_lat ix_lon :
  gridded_file w path f_prefix data_var v ix_ens ix_time ix_lat ix_lon →
  ¬ (0 < xr.size ix_lat ∧ 0 < xr.size ix_lon) →
  (_read_data_step path f_prefix X_coll data_var w).1
  = py.Raise py.ValueError.
Proof.
  intros (ds & Hfile & Hvar & Hdims). by eapply _read_data_step_empty.
Qed.

Lemma gridded_file_files {V} (w w' : py.world (file V)) path f_prefix data_var
    v ix_ens ix_time ix_lat ix_lon :
  py.files w' = py.files w →
  gridded_file w path f_prefix data_var v ix_ens ix_time ix_lat ix_lon →
  gridded_file w' path f_prefix data_var v ix_ens ix_time ix_lat ix_lon.
Proof. unfold gridded_file. by intros ->. Qed.

(** Three readable files give three arrays over [(enstime, lat, lon)],
    or the [ValueError] of the first one whose [lat] or [lon] is empty. *)
Lemma _read_data_loop_gridded_cases {V} path f_prefix (w : py.world (file V))
    v1 e1 t1 la1 lo1 v2 e2 t2 la2 lo2 v3 e3 t3 la3 lo3 :
  gridded_file w path f_prefix "TS" v1 e1 t1 la1 lo1 →
  gridded_file w path f_prefix "PSL" v2 e2 t2 la2 lo2 →
  gridded_file w path f_prefix "TMQ" v3 e3 t3 la3 lo3 →
  (Forall (λ ix, 0 < xr.size ix) [la1; lo1; la2; lo2; la3; lo3] ∧
   ∃ r1 r2 r3 w',
     py.for_each (_read_data_step path f_prefix) data_vars [] w
     = (py.Ok [{| xr.name := "TS"; xr.variable := r1 |};
               {| xr.name := "PSL"; xr.variable := r2 |};
               {| xr.name := "TMQ"; xr.variable := r3 |}], w') ∧
     py.files w' = py.files w ∧
     (xr.dims r1 = [("enstime", enstime_index e1 t1); ("lat", la1); ("lon", lo1)] ∧
      ∀ s la lo, xr.data r1 [s; la; lo]
                 = xr.data v1 [s / xr.size t1; s `mod` xr.size t1; la; lo]) ∧
     (xr.dims r2 = [("enstime", enstime_index e2 t2); ("lat", la2); ("lon", lo2)] ∧
      ∀ s la lo, xr.data r2 [s; la; lo]
                 = xr.data v2 [s / xr.size t2; s `mod` xr.size t2; la; lo]) ∧
     (xr.dims r3 = [("enstime", enstime_index e3 t3); ("lat", la3); ("lon", lo3)] ∧
      ∀ s la lo, xr.data r3 [s; la; lo]
                 = xr.data v3 [s / xr.size t3; s `mod` xr.size t3; la; lo]))
  ∨ (Exists (λ ix, xr.size ix = 0) [la1; lo1; la2; lo2; la3; lo3] ∧
     (py.for_each (_read_data_step path f_prefix) data_vars [] w).1
     = py.Raise py.ValueError).
Proof.
  intros H1 H2 H3. unfold data_vars. cbn [py.for_each]. unfold py.io_bind.
  destruct (decide (0 < xr.size la1 ∧ 0 < xr.size lo1)) as [[? ?]|Hno];
    last first.
  { right. split; [rewrite !Exists_cons; lia|].
    pose proof (_read_data_step_gridded_empty path f_prefix [] "TS" w
                  _ _ _ _ _ H1 Hno) as Hstep.
    destruct (_read_data_step path f_prefix [] "TS" w) as [[s|e] w1];
      simpl in *; [done|]. by injection Hstep as ->. }
  destruct (_read_data_step_gridded path f_prefix [] "TS" w _ _ _ _ _ H1)
    as ([n1 r1] & w1 & -> & Hw1 & Hn1 & Hd1 & Hdata1); [done..|].
  apply (gridded_file_files w w1) in H2; [|done].
  destruct (decide (0 < xr.size la2 ∧ 0 < xr.size lo2)) as [[? ?]|Hno];
    last first.
  { right. split; [rewrite !Exists_cons; lia|].
    pose proof (_read_data_step_gridded_empty path f_prefix
                  ([] ++ [{| xr.name := n1; xr.variable := r1 |}]) "PSL" w1
                  _ _ _ _ _ H2 Hno) as Hstep.
    destruct (_read_data_step path f_prefix _ "PSL" w1) as [[s|e] w2];
      simpl in *; [done|]. by injection Hstep as ->. }
  destruct (_read_data_step_gridded path f_prefix
              ([] ++ [{| xr.name := n1; xr.variable := r1 |}]) "PSL" w1
              _ _ _ _ _ H2)
    as ([n2 r2] & w2 & -> & Hw2 & Hn2 & Hd2 & Hdata2); [done..|].
  apply (gridded_file_files w w2) in H3; [|congruence].
  destruct (decide (0 < xr.size la3 ∧ 0 < xr.size lo3)) as [[? ?]|Hno];
    last first.
  { right. split; [rewrite !Exists_cons; lia|].
    pose proof (_read_data_step_gridded_empty path f_prefix
                  (([] ++ [{| xr.name := n1; xr.variable := r1 |}])
                   ++ [{| xr.name := n2; xr.variable := r2 |}]) "TMQ" w2
                  _ _ _ _ _ H3 Hno) as Hstep.
    destruct (_read_data_step path f_prefix _ "TMQ" w2) as [[s|e] w3];
      simpl in *; [done|]. by injection Hstep as ->. }
  destruct (_read_data_step_gridded path f_prefix
              (([] ++ [{| xr.name := n1; xr.variable := r1 |}])
               ++ [{| xr.name := n2; xr.variable := r2 |}]) "TMQ" w2
              _ _ _ _ _ H3)
    as ([n3 r3] & w3 & -> & Hw3 & Hn3 & Hd3 & Hdata3); [done..|].
  simpl in *. subst n1 n2 n3. left. split; [repeat constructor; done|].
  exists r1, r2, r3, w3. repeat split; try done. congruence.
Qed.

(** Three readable files with a [lat] and a [lon] that are not empty give
    three arrays over [(enstime, lat, lon)]. *)
Lemma _read_data_loop_gridded {V} path f_prefix (w : py.world (file V))
    v1 e1 t1 la1 lo1 v2 e2 t2 la2 lo2 v3 e3 t3 la3 lo3 :
  gridded_file w path f_prefix "TS" v1 e1 t1 la1 lo1 →
  gridded_file w path f_prefix "PSL" v2 e2 t2 la2 lo2 →
  gridded_file w path f_prefix "TMQ" v3 e3 t3 la3 lo3 →
  Forall (λ ix, 0 < xr.size ix) [la1; lo1; la2; lo2; la3; lo3] →
  ∃ r1 r2 r3 w',
    py.for_each (_read_data_step path f_prefix) data_vars [] w
    = (py.Ok [{| xr.name := "TS"; xr.variable := r1 |};
              {| xr.name := "PSL"; xr.variable := r2 |};
              {| xr.name := "TMQ"; xr.variable := r3 |}], w') ∧
    py.files w' = py.files w ∧
    (xr.dims r1 = [("enstime", enstime_index e1 t1); ("lat", la1); ("lon", lo1)] ∧
     ∀ s la lo, xr.data r1 [s; la; lo]
                = xr.data v1 [s / xr.size t1; s `mod` xr.size t1; la; lo]) ∧
    (xr.dims r2 = [("enstime", enstime_index e2 t2); ("lat", la2); ("lon", lo2)] ∧
     ∀ s la lo, xr.data r2 [s; la; lo]
                = xr.data v2 [s / xr.size t2; s `mod` xr.size t2; la; lo]) ∧
    (xr.dims r3 = [("enstime", enstime_index e3 t3); ("lat", la3); ("lon", lo3)] ∧
     ∀ s la lo, xr.data r3 [s; la; lo]
                = xr.data v3 [s / xr.size t3; s `mod` xr.size t3; la; lo]).
Proof.
  intros H1 H2 H3 Hpos.
  destruct (_read_data_loop_gridded_cases path f_prefix w _ _ _ _ _ _ _ _ _ _
              _ _ _ _ _ H1 H2 H3) as [[_ Hloop]|[Hempty _]]; [done|].
  exfalso. apply Exists_exists in Hempty as (ix & Hin & Hz).
  rewrite Forall_forall in Hpos. specialize (Hpos ix Hin). lia.
Qed.



Lemma NoDup_enstime_lat_lon : NoDup ["enstime"; "lat"; "lon"].
Proof.
  repeat (apply NoDup_cons; split;
          [rewrite ?elem_of_cons, elem_of_nil; intros H; by decompose [or] H|]).
  apply NoDup_nil_2.
Qed.

(** The gridded half on three files that share their indexes: the three
    stacked arrays, by name. *)
Lemma _read_data_grids_aligned {V} (nan : V) path f_prefix
    (w : py.world (file V)) v1 v2 v3 ix_ens ix_time ix_lat ix_lon :
  gridded_file w path f_prefix "TS" v1 ix_ens ix_time ix_lat ix_lon →
  gridded_file w path f_prefix "PSL" v2 ix_ens ix_time ix_lat ix_lon →
  gridded_file w path f_prefix "TMQ" v3 ix_ens ix_time ix_lat ix_lon →
  0 < xr.size ix_lat → 0 < xr.size ix_lon →
  ∃ r1 r2 r3 w',
    _read_data_grids nan path f_prefix w
    = (py.Ok (<["TMQ" := r3]> (<["PSL" := r2]> (<["TS" := r1]> ∅))), w') ∧
    py.files w' = py.files w ∧
    Forall (λ vr : xr.Var V * xr.Var V,
              xr.dims vr.2 = [("enstime", enstime_index ix_ens ix_time);
                              ("lat", ix_lat); ("lon", ix_lon)] ∧
              ∀ s la lo,
                xr.data vr.2 [s; la; lo]
                = xr.data vr.1 [s / xr.size ix_time;
                                s `mod` xr.size ix_time; la; lo])
      [(v1, r1); (v2, r2); (v3, r3)].
Proof.
  intros H1 H2 H3 Hlat Hlon.
  destruct (_read_data_loop_gridded path f_prefix w _ _ _ _ _ _ _ _ _ _
              _ _ _ _ _ H1 H2 H3)
    as (r1 & r2 & r3 & w' & Hloop & Hw' & [Hd1 Hx1] & [Hd2 Hx2] & [Hd3 Hx3]);
    [repeat constructor; done|].
  exists r1, r2, r3, w'. split; [|split; [done|]].
  - unfold _read_data_grids, py.io_bind. rewrite Hloop. unfold py.lift.
    f_equal.
    rewrite (merge_aligned nan _
               [("enstime", enstime_index ix_ens ix_time);
                ("lat", ix_lat); ("lon", ix_lon)]).
    + cbn [xr.to_dataset xr.name xr.variable]. rewrite lookup_empty.
      rewrite lookup_insert_ne by done. rewrite lookup_empty.
      rewrite !lookup_insert_ne by done. by rewrite lookup_empty.
    + intros da Hda. repeat (apply elem_of_cons in Hda as [->|Hda]); try done.
      by apply elem_of_nil in Hda.
    + apply NoDup_enstime_lat_lon.
  - repeat constructor; done.
Qed.

(** ** The label half on a readable table *)

Lemma comprehension_getitem_defined {V} (df : pd.DataFrame V) cs :
  (∀ c, c ∈ cs → c ∈ pd.columns df) →
  ∃ cols, py.comprehension (pd.getitem df) cs = py.Ok cols ∧
          length cols = length cs.
Proof.
  induction cs as [|c cs IH]; intros Hsub; [by exists []|].
  destruct IH as (cols & Hcols & Hlen); [intros c' Hc'; apply Hsub; by right|].
  assert (c ∈ pd.columns df) as Hc by (apply Hsub; by left).
  apply list_elem_of_fmap in Hc as ([c' cells] & Hc & Hin).
  simpl in Hc. subst c'.
  destruct (list_find_elem_of (λ p : string * list V, p.1 = c)
              (pd.column_data df) (c, cells)) as [[i p] Hfind]; [done..|].
  exists (p.2 :: cols). cbn [py.comprehension]. unfold pd.getitem at 1.
  rewrite Hfind. cbn [py.bind]. rewrite Hcols. simpl. by rewrite Hlen.
Qed.

(** A table with a [Year] column and at least one more column gives a
    label vector. *)
Lemma _read_data_labels_readable {V} path f_prefix
    (w : py.world (file V)) (t : pd.table V) :
  py.files w !! csv_file path f_prefix = Some (CSV t) →
  "Year" ∈ t.*1 → 2 ≤ length t →
  ∃ y_array, _read_data_labels path f_prefix w = (py.Ok y_array, w).
Proof.
  intros Hfile Hyear Hlen.
  unfold _read_data_labels, py.io_bind, read_csv, py.lift. rewrite Hfile.
  unfold pd.set_index.
  apply list_elem_of_fmap in Hyear as ([c cells] & Hc & Hin).
  simpl in Hc. subst c.
  destruct (list_find_elem_of (λ p : string * list V, p.1 = "Year")
              t ("Year", cells)) as [[i p] Hfind]; [done..|].
  rewrite Hfind.
  pose proof Hfind as (Hi & _)%list_find_Some.
  set (df := {| pd.index := p.2; pd.column_data := delete i t |}).
  destruct (comprehension_getitem_defined df (pd.columns df))
    as (cols & -> & Hcols); [done|].
  assert (length cols = length t - 1) as Hcols'.
  { rewrite Hcols. unfold pd.columns, df. cbn [pd.column_data].
    rewrite length_fmap, length_delete; [lia|by eexists]. }
  unfold concatenate. destruct cols as [|col cols]; [simpl in *; lia|].
  by eexists.
Qed.

(** ** The claims about [_read_data] *)

(** C6: when the gridded half succeeds and the table has distinct column
    names, a [Year] column and data columns [c_1, ..., c_k], [k >= 1],
    [_read_data] returns the cells of [c_1], then those of [c_2], ..., then
    those of [c_k]; the length of the label vector is the sum of the
    lengths of the columns. *)
Theorem _read_data_label_vector {V} (nan : V) path f_prefix
    (w w1 : py.world (file V)) (X_ds : xr.Dataset V) (t : pd.table V) :
  _read_data_grids nan path f_prefix w = (py.Ok X_ds, w1) →
  py.files w !! csv_file path f_prefix = Some (CSV t) →
  NoDup t.*1 → "Year" ∈ t.*1 →
  filter (λ p : string * list V, p.1 ≠ "Year") t ≠ [] →
  let columns := (filter (λ p : string * list V, p.1 ≠ "Year") t).*2 in
  _read_data nan path f_prefix w = (py.Ok (X_ds, concat columns), w1) ∧
  length (concat columns) = sum_list (length <$> columns).
Proof.
  intros Hgrids Hfile Hnd Hyear Hdata columns. split.
  - rewrite _read_data_halves. unfold py.io_bind at 1. rewrite Hgrids.
    unfold py.io_bind.
    rewrite (_read_data_labels_columns path f_prefix w1 t); [done| |done..].
    pose proof (reads_only_read_data_grids_files nan path f_prefix w) as Hw.
    rewrite Hgrids in Hw. simpl in Hw. by rewrite Hw.
  - induction columns as [|col cols IH]; [done|].
    simpl. by rewrite length_app, IH.
Qed.


(** ** Failures *)

Lemma _read_data_step_missing {V} path f_prefix
    (X_coll : list (xr.DataArray V)) data_var (w : py.world (file V)) :
  py.files w !! nc_file path f_prefix data_var = None →
  (_read_data_step path f_prefix X_coll data_var w).1
  = py.Raise (py.FileNotFoundError (nc_file path f_prefix data_var)).
Proof.
  intros Hfile. unfold _read_data_step, py.io_bind, py.print, open_dataset.
  simpl. by rewrite Hfile.
Qed.

Lemma for_each_app {F A S} (body : S → A → py.io F S) l1 l2 s w :
  py.for_each body (l1 ++ l2) s w
  = py.io_bind (py.for_each body l1 s) (py.for_each body l2) w.
Proof.
  revert s w. induction l1 as [|x l1 IH]; intros s w; [done|].
  simpl. unfold py.io_bind in *.
  destruct (body s x w) as [[s'|e] w']; [|done]. apply IH.
Qed.

Lemma for_each_files {V} path f_prefix l
    (X_coll : list (xr.DataArray V)) (w : py.world (file V)) :
  py.files (py.for_each (_read_data_step path f_prefix) l X_coll w).2
  = py.files w.
Proof.
  apply reads_only_for_each. intros s x. apply reads_only_read_data_step.
Qed.

(** The loop raises when the file of one of its variables is missing. *)
Lemma for_each_missing {V} path f_prefix l data_var
    (X_coll : list (xr.DataArray V)) (w : py.world (file V)) :
  data_var ∈ l →
  py.files w !! nc_file path f_prefix data_var = None →
  ∃ e, (py.for_each (_read_data_step path f_prefix) l X_coll w).1
       = py.Raise e.
Proof.
  revert X_coll w. induction l as [|x l IH]; intros X_coll w Hin Hfile.
  { by apply elem_of_nil in Hin. }
  simpl. unfold py.io_bind.
  pose proof (_read_data_step_files path f_prefix X_coll x w) as Hw.
  destruct (_read_data_step path f_prefix X_coll x w) as [[s'|e] w'] eqn:Hstep;
    [|by exists e].
  apply elem_of_cons in Hin as [->|Hin].
  - pose proof (_read_data_step_missing path f_prefix X_coll x w Hfile) as H.
    by rewrite Hstep in H.
  - apply IH; [done|]. simpl in Hw. by rewrite Hw.
Qed.

Lemma read_csv_missing {V} path f_prefix (w : py.world (file V)) :
  py.files w !! csv_file path f_prefix = None →
  (_read_data_labels path f_prefix w).1
  = py.Raise (py.FileNotFoundError (csv_file path f_prefix)).
Proof.
  intros Hfile. unfold _read_data_labels, py.io_bind, read_csv.
  by rewrite Hfile.
Qed.

Lemma _read_data_raise_grids {V} (nan : V) path f_prefix
    (w : py.world (file V)) e :
  (_read_data_grids nan path f_prefix w).1 = py.Raise e →
  (_read_data nan path f_prefix w).1 = py.Raise e.
Proof.
  intros Hgrids. rewrite _read_data_halves. unfold py.io_bind at 1.
  destruct (_read_data_grids nan path f_prefix w) as [[X|e'] w1];
    simpl in *; congruence.
Qed.

Lemma _read_data_grids_raise_loop {V} (nan : V) path f_prefix
    (w : py.world (file V)) e :
  (py.for_each (_read_data_step path f_prefix) data_vars [] w).1 = py.Raise e →
  (_read_data_grids nan path f_prefix w).1 = py.Raise e.
Proof.
  intros Hloop. unfold _read_data_grids, py.io_bind.
  destruct (py.for_each _ _ _ w) as [[X|e'] w1]; simpl in *; congruence.
Qed.

Lemma find_range_dim {V} (r1 r2 r3 : xr.Var V) d ix1 ix2 ix3 n :
  xr.dim_index r1 d = Some ix1 → xr.dim_index r2 d = Some ix2 →
  xr.dim_index r3 d = Some ix3 →
  xr.RangeDim n ∈ [ix1; ix2; ix3] →
  ∃ da, da ∈ [{| xr.name := "TS"; xr.variable := r1 |};
              {| xr.name := "PSL"; xr.variable := r2 |};
              {| xr.name := "TMQ"; xr.variable := r3 |}] ∧
        xr.dim_index (xr.variable da) d = Some (xr.RangeDim n).
Proof.
  intros H1 H2 H3 Hn.
  apply elem_of_cons in Hn as [->|Hn];
    [|apply elem_of_cons in Hn as [->|Hn];
      [|apply elem_of_cons in Hn as [->|Hn]; [|by apply elem_of_nil in Hn]]].
  - eexists. split; [by left|done].
  - eexists. split; [right; by left|done].
  - eexists. split; [right; right; by left|done].
Qed.

(** C8 (amended): [_read_data] returns no result when one of its four
    files is missing: it raises.  The exception is the
    [FileNotFoundError] of the first missing file when the files read
    before it load (and, for the table, when the three variables merge).
    Three loaded variables whose [lat] or [lon] dimension has no
    coordinate labels and differs in size raise the [ValueError] of
    [xr.merge].  Every exception is the one the failing step raised. *)
Theorem _read_data_errors {V} (nan : V) path f_prefix (w : py.world (file V)) :
  (∀ p, p ∈ expected_files path f_prefix → py.files w !! p = None →
        ∃ e, (_read_data nan path f_prefix w).1 = py.Raise e) ∧
  (∀ loaded data_var rest X_coll w1,
     data_vars = loaded ++ data_var :: rest →
     py.for_each (_read_data_step path f_prefix) loaded [] w
     = (py.Ok X_coll, w1) →
     py.files w !! nc_file path f_prefix data_var = None →
     (_read_data nan path f_prefix w).1
     = py.Raise (py.FileNotFoundError (nc_file path f_prefix data_var))) ∧
  (∀ X_ds w1,
     _read_data_grids nan path f_prefix w = (py.Ok X_ds, w1) →
     py.files w !! csv_file path f_prefix = None →
     (_read_data nan path f_prefix w).1
     = py.Raise (py.FileNotFoundError (csv_file path f_prefix))) ∧
  (∀ v1 e1 t1 la1 lo1 v2 e2 t2 la2 lo2 v3 e3 t3 la3 lo3 d ixs n1 n2,
     gridded_file w path f_prefix "TS" v1 e1 t1 la1 lo1 →
     gridded_file w path f_prefix "PSL" v2 e2 t2 la2 lo2 →
     gridded_file w path f_prefix "TMQ" v3 e3 t3 la3 lo3 →
     (d, ixs) ∈ [("lat", [la1; la2; la3]); ("lon", [lo1; lo2; lo3])] →
     xr.RangeDim n1 ∈ ixs → xr.RangeDim n2 ∈ ixs → n1 ≠ n2 →
     (_read_data nan path f_prefix w).1 = py.Raise py.ValueError).
Proof.
  repeat split.
  - intros p Hp Hfile. unfold expected_files in Hp.
    apply elem_of_app in Hp as [Hp|Hp].
    + apply list_elem_of_fmap in Hp as (data_var & -> & Hin).
      destruct (for_each_missing path f_prefix data_vars data_var [] w
                  Hin Hfile) as [e He].
      exists e. by apply _read_data_raise_grids, _read_data_grids_raise_loop.
    + apply list_elem_of_singleton in Hp as ->.
      destruct (_read_data_grids nan path f_prefix w) as [[X|e] w1] eqn:Hgrids.
      * exists (py.FileNotFoundError (csv_file path f_prefix)).
        rewrite _read_data_halves. unfold py.io_bind at 1.
        rewrite Hgrids. unfold py.io_bind.
        pose proof (read_csv_missing path f_prefix w1) as Hcsv.
        pose proof (reads_only_read_data_grids_files nan path f_prefix w) as Hw.
        rewrite Hgrids in Hw. simpl in Hw.
        rewrite Hw in Hcsv. specialize (Hcsv Hfile).
        destruct (_read_data_labels path f_prefix w1) as [[y|e] w2];
          simpl in *; [done|]. by injection Hcsv as ->.
      * exists e. apply _read_data_raise_grids. by rewrite Hgrids.
  - intros loaded data_var rest X_coll w1 Hvars Hloaded Hfile.
    apply _read_data_raise_grids, _read_data_grids_raise_loop.
    rewrite Hvars, for_each_app. unfold py.io_bind at 1. rewrite Hloaded.
    cbn [py.for_each]. unfold py.io_bind.
    pose proof (for_each_files path f_prefix loaded [] w) as Hw.
    rewrite Hloaded in Hw. simpl in Hw.
    pose proof (_read_data_step_missing path f_prefix X_coll data_var w1)
      as Hstep.
    rewrite Hw in Hstep. specialize (Hstep Hfile).
    destruct (_read_data_step path f_prefix X_coll data_var w1)
      as [[s|e] w2]; simpl in *; [done|]. by injection Hstep as ->.
  - intros X_ds w1 Hgrids Hfile.
    rewrite _read_data_halves. unfold py.io_bind at 1. rewrite Hgrids.
    unfold py.io_bind.
    pose proof (read_csv_missing path f_prefix w1) as Hcsv.
    pose proof (reads_only_read_data_grids_files nan path f_prefix w) as Hw.
    rewrite Hgrids in Hw. simpl in Hw.
    rewrite Hw in Hcsv. specialize (Hcsv Hfile).
    destruct (_read_data_labels path f_prefix w1) as [[y|e] w2];
      simpl in *; [done|]. by injection Hcsv as ->.
  - intros v1 e1 t1 la1 lo1 v2 e2 t2 la2 lo2 v3 e3 t3 la3 lo3 d ixs n1 n2
      H1 H2 H3 Hd Hn1 Hn2 Hne.
    apply _read_data_raise_grids.
    destruct (_read_data_loop_gridded_cases path f_prefix w
                _ _ _ _ _ _ _ _ _ _ _ _ _ _ _ H1 H2 H3)
      as [[_ (r1 & r2 & r3 & w' & Hloop & Hw' & [Hd1 _] & [Hd2 _] & [Hd3 _])]
         |[_ Hraise]];
      [|by apply _read_data_grids_raise_loop].
    unfold _read_data_grids, py.io_bind. rewrite Hloop. unfold py.lift.
    cbn [fst].
    set (objects := [{| xr.name := "TS"; xr.variable := r1 |};
                     {| xr.name := "PSL"; xr.variable := r2 |};
                     {| xr.name := "TMQ"; xr.variable := r3 |}]).
    assert (∃ ix1 ix2 ix3, ixs = [ix1; ix2; ix3] ∧
              xr.dim_index r1 d = Some ix1 ∧ xr.dim_index r2 d = Some ix2 ∧
              xr.dim_index r3 d = Some ix3) as (ix1 & ix2 & ix3 & -> & Hixs).
    { unfold xr.dim_index. rewrite Hd1, Hd2, Hd3.
      repeat (apply elem_of_cons in Hd as [[= -> ->]|Hd]);
        [..|by apply elem_of_nil in Hd]; by eexists _, _, _. }
    destruct Hixs as (Hix1 & Hix2 & Hix3).
    pose proof (λ n, find_range_dim r1 r2 r3 d ix1 ix2 ix3 n Hix1 Hix2 Hix3)
      as Hfind.
    fold objects in Hfind. clear Hix1 Hix2 Hix3.
    destruct (Hfind n1 Hn1) as (da1 & Hin1 & Hix1).
    destruct (Hfind n2 Hn2) as (da2 & Hin2 & Hix2).
    by rewrite (merge_conflict nan objects da1 da2 d n1 n2).
Qed.

(** ** What the loader prints *)

Lemma release_opened (path : string) (held : list string) :
  py.release path (path :: held) = held.
Proof. simpl. by rewrite decide_True. Qed.

(** Whatever its outcome, a pass leaves the files as they are and prints
    the path of its file. *)
Lemma _read_data_step_world {V} path f_prefix
    (X_coll : list (xr.DataArray V)) data_var (w : py.world (file V)) :
  py.files (_read_data_step path f_prefix X_coll data_var w).2 = py.files w ∧
  py.stdout (_read_data_step path f_prefix X_coll data_var w).2
  = py.stdout w ++ [nc_file path f_prefix data_var].
Proof.
  unfold _read_data_step, py.io_bind, py.print, open_dataset, load, close,
    py.io_ret, py.lift.
  simpl. destruct (py.files w !! _) as [[ds|t]|]; [|done..].
  simpl. destruct (xr.getitem ds data_var) as [da|e]; [|done].
  destruct (xr.stack da _ _ _) as [st|e]; [|done].
  by destruct (xr.transpose st _).
Qed.

(** A pass that returns has closed the file it opened: the files held
    open are those held before. *)
Lemma _read_data_step_returns {V} path f_prefix
    (X_coll X_coll' : list (xr.DataArray V)) data_var
    (w w' : py.world (file V)) :
  _read_data_step path f_prefix X_coll data_var w = (py.Ok X_coll', w') →
  w' = py.World (py.files w)
         (py.stdout w ++ [nc_file path f_prefix data_var]) (py.open_files w).
Proof.
  unfold _read_data_step, py.io_bind, py.print, open_dataset, load, close,
    py.io_ret, py.lift.
  simpl. destruct (py.files w !! _) as [[ds|t]|]; [|done..].
  simpl. destruct (xr.getitem ds data_var) as [da|e]; [|done].
  destruct (xr.stack da _ _ _) as [st|e]; [|done].
  destruct (xr.transpose st _); [|done].
  rewrite decide_True by done. by intros [= _ <-].
Qed.

Lemma for_each_world {V} path f_prefix l
    (X_coll X_coll' : list (xr.DataArray V)) (w w' : py.world (file V)) :
  py.for_each (_read_data_step path f_prefix) l X_coll w = (py.Ok X_coll', w') →
  w' = py.World (py.files w) (py.stdout w ++ (nc_file path f_prefix <$> l))
         (py.open_files w).
Proof.
  revert X_coll w. induction l as [|x l IH]; intros X_coll w Hloop.
  - injection Hloop as _ <-. destruct w. simpl. by rewrite app_nil_r.
  - simpl in Hloop. unfold py.io_bind in Hloop.
    destruct (_read_data_step path f_prefix X_coll x w) as [[s|e] w1]
      eqn:Hstep; [|done].
    apply _read_data_step_returns in Hstep as ->.
    apply IH in Hloop as ->. simpl. by rewrite <-app_assoc.
Qed.

Lemma _read_data_labels_world {V} path f_prefix (w : py.world (file V)) :
  (_read_data_labels path f_prefix w).2 = w.
Proof.
  unfold _read_data_labels, py.io_bind, read_csv, py.lift.
  destruct (py.files w !! _) as [[ds|t]|]; [done| |done].
  destruct (pd.set_index t "Year") as [y|e]; [|done].
  by destruct (py.comprehension _ _).
Qed.

(** The world that a call leaves when it returns. *)
Lemma _read_data_returns_world {V} (nan : V) path f_prefix
    (w w' : py.world (file V)) X_ds y_array :
  _read_data nan path f_prefix w = (py.Ok (X_ds, y_array), w') →
  w' = py.World (py.files w)
         (py.stdout w ++ [nc_file path f_prefix "TS";
                          nc_file path f_prefix "PSL";
                          nc_file path f_prefix "TMQ"])
         (py.open_files w).
Proof.
  rewrite _read_data_halves. unfold py.io_bind at 1.
  unfold _read_data_grids at 1. unfold py.io_bind at 1.
  destruct (py.for_each _ _ _ w) as [[X_coll|e] w1] eqn:Hloop; [|done].
  apply for_each_world in Hloop as ->. unfold py.lift.
  destruct (xr.merge nan X_coll) as [X|e]; [|done].
  unfold py.io_bind.
  pose proof (_read_data_labels_world path f_prefix
                (py.World (py.files w)
                   (py.stdout w ++ (nc_file path f_prefix <$> data_vars))
                   (py.open_files w)))
    as Hw.
  destruct (_read_data_labels path f_prefix _) as [[y|e] w2]; [|done].
  simpl in Hw. subst w2. unfold py.io_ret. by intros [= _ _ <-].
Qed.

(** X3: a call that returns has printed the paths of the three gridded
    files, in the order [TS], [PSL], [TMQ], and nothing else; the files are
    as before, and so are the files held open. *)
Theorem _read_data_prints_paths {V} (nan : V) path f_prefix
    (w w' : py.world (file V)) X_ds y_array :
  _read_data nan path f_prefix w = (py.Ok (X_ds, y_array), w') →
  w' = py.World (py.files w)
         (py.stdout w ++ [nc_file path f_prefix "TS";
                          nc_file path f_prefix "PSL";
                          nc_file path f_prefix "TMQ"])
         (py.open_files w).
Proof. apply _read_data_returns_world. Qed.

(** ** Concrete runs of [_read_data] *)

Lemma example_gridded_TS out held :
  gridded_file (py.World example_files out held) "./" "train" "TS"
    (example_grid 2 3 1 2)
    (xr.RangeDim 2) (xr.RangeDim 3) (xr.RangeDim 1) (xr.RangeDim 2).
Proof.
  exists {[ "TS" := example_grid 2 3 1 2 ]}.
  split; [vm_compute; reflexivity|]. split; [vm_compute; reflexivity|done].
Qed.

Lemma example_gridded_PSL out held :
  gridded_file (py.World example_files out held) "./" "train" "PSL"
    (example_grid 2 3 1 2)
    (xr.RangeDim 2) (xr.RangeDim 3) (xr.RangeDim 1) (xr.RangeDim 2).
Proof.
  exists {[ "PSL" := example_grid 2 3 1 2 ]}.
  split; [vm_compute; reflexivity|]. split; [vm_compute; reflexivity|done].
Qed.

Lemma example_gridded_TMQ out held :
  gridded_file (py.World example_files out held) "./" "train" "TMQ"
    (example_grid 2 3 1 2)
    (xr.RangeDim 2) (xr.RangeDim 3) (xr.RangeDim 1) (xr.RangeDim 2).
Proof.
  exists {[ "TMQ" := example_grid 2 3 1 2 ]}.
  split; [vm_compute; reflexivity|]. split; [vm_compute; reflexivity|done].
Qed.

Lemma example_grids :
  ∃ X_ds w1,
    _read_data_grids 0%Z "./" "train" (py.World example_files [] [])
    = (py.Ok X_ds, w1).
Proof.
  destruct (_read_data_grids_aligned 0%Z "./" "train"
              (py.World example_files [] []) _ _ _ _ _ _ _
              (example_gridded_TS [] []) (example_gridded_PSL [] [])
              (example_gridded_TMQ [] []))
    as (r1 & r2 & r3 & w1 & Hgrids & _); [simpl; lia..|].
  by eexists _, _.
Qed.

Lemma example_run out held :
  ∃ X_ds y_array w',
    _read_data 0%Z "./" "train" (py.World example_files out held)
    = (py.Ok (X_ds, y_array), w').
Proof.
  destruct (_read_data_grids_aligned 0%Z "./" "train"
              (py.World example_files out held) _ _ _ _ _ _ _
              (example_gridded_TS out held) (example_gridded_PSL out held)
              (example_gridded_TMQ out held))
    as (r1 & r2 & r3 & w1 & Hgrids & Hw1 & _); [simpl; lia..|].
  destruct (_read_data_labels_readable "./" "train" w1 example_table)
    as (y_array & Hlabels).
  - rewrite Hw1. vm_compute. reflexivity.
  - vm_compute. left.
  - vm_compute. lia.
  - eexists _, y_array, w1. rewrite _read_data_halves.
    unfold py.io_bind at 1. rewrite Hgrids. unfold py.io_bind.
    by rewrite Hlabels.
Qed.

Lemma _read_data_prints_paths_witness :
  ∃ X_ds y_array,
    _read_data 0%Z "./" "train" (py.World example_files ["start"] [])
    = (py.Ok (X_ds, y_array),
       py.World example_files
         ["start"; "./data/train_TS.nc"; "./data/train_PSL.nc";
          "./data/train_TMQ.nc"] []).
Proof.
  destruct (example_run ["start"] []) as (X_ds & y_array & w' & Hrun).
  exists X_ds, y_array. rewrite Hrun. f_equal.
  exact (_read_data_prints_paths 0%Z "./" "train" _ _ _ _ Hrun).
Defined.

Lemma _read_data_label_vector_witness :
  ∃ X_ds w1,
    _read_data 0%Z "./" "train" (py.World example_files [] [])
    = (py.Ok (X_ds, [0; 1; 0; 1; 1; 0]%Z), w1).
Proof.
  destruct example_grids as (X_ds & w1 & Hgrids).
  exists X_ds, w1.
  refine (proj1 (_read_data_label_vector 0%Z "./" "train"
                   (py.World example_files [] []) w1 X_ds example_table
                   Hgrids _ _ _ _)).
  - vm_compute. reflexivity.
  - apply (bool_decide_unpack (NoDup _)). vm_compute. exact I.
  - vm_compute. left.
  - vm_compute. discriminate.
Defined.



(** C8, as stated, fails when the pressure file has two years and the
    other two files three: the extents along [time] differ (3, 2, 3), but
    the stacked dimension carries labels, the merge joins them, and
    [_read_data] returns a structure whose pressure variable has all six
    samples, the two that the file lacks holding [nan] (here [-1]). *)
Lemma _read_data_errors_counterexample :
  (λ data_var,
     match example_files_short_PSL !! nc_file "./" "train" data_var with
     | Some (NetCDF ds) =>
         (λ v, xr.size <$> (xr.dims v).*2) <$> ds !! data_var
     | _ => None
     end) <$> data_vars
  = [Some [2; 3; 1; 2]; Some [2; 2; 1; 2]; Some [2; 3; 1; 2]] ∧
  match (_read_data (-1)%Z "./" "train"
           (py.World example_files_short_PSL [] [])).1 with
  | py.Ok (X_ds, y_array) =>
      (λ r, (xr.size <$> (xr.dims r).*2,
             (λ s, xr.data r [s; 0; 0]) <$> seq 0 6)) <$> X_ds !! "PSL"
  | py.Raise _ => None
  end
  = Some ([6; 1; 2], [0; 100; -1; 1000; 1100; -1]%Z).
Proof. split; vm_compute; reflexivity. Qed.

Lemma _read_data_errors_witness :
  (_read_data 0%Z "./" "train"
     (py.World (delete "./data/train_TS.nc" example_files) [] [])).1
  = py.Raise (py.FileNotFoundError "./data/train_TS.nc").
Proof.
  destruct (_read_data_errors 0%Z "./" "train"
              (py.World (delete "./data/train_TS.nc" example_files) [] []))
    as (_ & Hfirst & _).
  apply (Hfirst [] "TS" ["PSL"; "TMQ"] []
           (py.World (delete "./data/train_TS.nc" example_files) [] [])).
  - reflexivity.
  - reflexivity.
  - vm_compute. reflexivity.
Defined.

(** The table is missing: the exception names it. *)
Example _read_data_no_table :
  (_read_data 0%Z "./" "train"
     (py.World (delete "./data/train_precip_90.csv" example_files) [] [])).1
  = py.Raise (py.FileNotFoundError "./data/train_precip_90.csv").
Proof. vm_compute. reflexivity. Qed.

(** Two latitudes in the pressure file against one in the others: the
    dimension has no labels, and the merge raises. *)
Example _read_data_wide_PSL :
  (_read_data 0%Z "./" "train" (py.World example_files_wide_PSL [] [])).1
  = py.Raise py.ValueError.
Proof. vm_compute. reflexivity. Qed.

(** The loader prints the three paths, in the order of the variables, and
    holds no file open when it has returned. *)
Example _read_data_prints :
  (λ w, (py.stdout w, py.open_files w))
    (_read_data 0%Z "./" "train" (py.World example_files [] [])).2
  = (["./data/train_TS.nc"; "./data/train_PSL.nc"; "./data/train_TMQ.nc"],
     []).
Proof. vm_compute. reflexivity. Qed.

(** * More about the fold generator *)

#[local] Opaque t_size.

Lemma filter_seq_StronglySorted (P : nat → Prop) `{!∀ i, Decision (P i)} s n :
  StronglySorted lt (filter P (seq s n)).
Proof.
  revert s. induction n as [|n IH]; intros s; [constructor|].
  cbn [seq]. rewrite filter_cons. destruct (decide (P s)); [|apply IH].
  constructor; [apply IH|].
  apply Forall_forall. intros i Hi.
  apply list_elem_of_filter in Hi as [_ Hi]. apply elem_of_seq in Hi. lia.
Qed.

Lemma remainder_mod N : N - n_members N * t_size = N `mod` t_size.
Proof.
  unfold n_members. pose proof (Nat.div_mod_eq N t_size). lia.
Qed.

(** X4: from two full blocks on, the first fold tests
    [1155 + N mod 1155] indices and every other fold exactly 1155; a fold
    trains on the [N - len(test)] other indices, which are at least 1155,
    so that no fold has an empty train or test set. *)
Theorem get_cv_fold_sizes {A B} (X : A) (y : list B) :
  2 * t_size ≤ length y →
  ∃ folds, get_cv X y = py.Ok folds ∧
    ∀ g train test,
      folds !! g = Some (train, test) →
      length test
      = t_size + (if decide (g = 0) then length y `mod` t_size else 0) ∧
      length train = length y - length test ∧
      t_size ≤ length train.
Proof.
  intros HN.
  destruct (get_cv_folds_lookup X y HN) as (folds & Hcv & Hlen & Hfold).
  exists folds. split; [done|]. intros g train test Hg.
  assert (g < n_members (length y)) as Hlt
    by (rewrite <-Hlen; by eapply lookup_lt_Some).
  rewrite Hfold in Hg by done. injection Hg as <- <-.
  pose proof (train_test_length (length y) g) as Hsum.
  rewrite test_set_block in * by done.
  rewrite length_app, !length_seq in *.
  assert (length (if decide (g = 0)
                  then seq (n_members (length y) * t_size)
                         (length y - n_members (length y) * t_size)
                  else [])
          = if decide (g = 0) then length y `mod` t_size else 0) as Hrem.
  { case_decide; [|done]. by rewrite length_seq, remainder_mod. }
  rewrite Hrem in *. split; [done|]. split; [lia|].
  pose proof (n_members_le (length y)) as Hle.
  pose proof (remainder_mod (length y)) as Hmod.
  assert (2 ≤ n_members (length y)) as Hn by (apply n_members_ge; lia).
  assert (2 * t_size ≤ n_members (length y) * t_size)
    by (apply Nat.mul_le_mono_r; lia).
  case_decide; lia.
Qed.

(** X5: the train and test indices of every fold are strictly increasing,
    hence without repetition, and are indices of [y]. *)
Theorem get_cv_folds_increasing {A B} (X : A) (y : list B) folds train test :
  get_cv X y = py.Ok folds → (train, test) ∈ folds →
  StronglySorted lt train ∧ StronglySorted lt test ∧
  Forall (λ i, i < length y) (train ++ test).
Proof.
  intros Hcv Hin.
  destruct (decide (length y < 2 * t_size)) as [Hfew|Hmany].
  { by rewrite get_cv_few_groups in Hcv by done. }
  rewrite get_cv_folds in Hcv by lia. injection Hcv as <-.
  apply list_elem_of_fmap in Hin as (g & [= -> ->] & _).
  split; [apply filter_seq_StronglySorted|].
  split; [apply filter_seq_StronglySorted|].
  apply Forall_app. split; apply Forall_forall; intros i Hi;
    apply list_elem_of_filter in Hi as [_ Hi]; apply elem_of_seq in Hi; lia.
Qed.

(** X6: no pass of the loop writes past the end of [groups]: at the start
    of pass [g], [i = g * 1155] and [i + 1155 <= N]; the pass sets the
    1155 entries of block [g] to [g] and leaves every other entry as it
    was. *)
Theorem get_cv_loop_in_bounds (N g : nat) :
  g < n_members N →
  (get_cv_loop N g).2 = g * t_size ∧
  (get_cv_loop N g).2 + t_size ≤ N ∧
  ∀ j, j < N →
    (get_cv_loop N (S g)).1 !! j
    = if decide (g * t_size ≤ j < g * t_size + t_size) then Some g
      else (get_cv_loop N g).1 !! j.
Proof.
  intros Hg. pose proof (n_members_le N) as Hle.
  assert (g * t_size + t_size ≤ n_members N * t_size) as Hblock
    by (replace (g * t_size + t_size) with ((g + 1) * t_size) by lia;
        apply Nat.mul_le_mono_r; lia).
  rewrite get_cv_loop_snd. split; [done|]. split; [lia|].
  intros j Hj. rewrite !get_cv_loop_lookup by done.
  destruct (decide (g * t_size ≤ j < g * t_size + t_size)) as [Hin|Hout].
  - rewrite decide_True by lia. by rewrite (block_div j g).
  - destruct (decide (j < g * t_size)).
    + by rewrite decide_True by lia.
    + by rewrite decide_False by lia.
Qed.

#[local] Transparent t_size.

Lemma get_cv_fold_sizes_witness :
  ∃ folds, get_cv () (replicate 2311 0) = py.Ok folds ∧
    ∀ g train test,
      folds !! g = Some (train, test) →
      length test
      = t_size + (if decide (g = 0)
                  then length (replicate 2311 0) `mod` t_size else 0) ∧
      length train = length (replicate 2311 0) - length test ∧
      t_size ≤ length train.
Proof.
  apply (get_cv_fold_sizes () (replicate 2311 0)).
  vm_compute. lia.
Defined.

Lemma get_cv_folds_increasing_witness :
  ∃ folds train test,
    get_cv () (replicate 2310 0) = py.Ok folds ∧
    folds !! 1 = Some (train, test) ∧
    StronglySorted lt train ∧ StronglySorted lt test.
Proof.
  destruct (get_cv_folds_lookup () (replicate 2310 0))
    as (folds & Hcv & _ & Hfold); [vm_compute; lia|].
  specialize (Hfold 1). eexists folds, _, _.
  split; [exact Hcv|]. split; [apply Hfold; vm_compute; lia|].
  refine (let H := get_cv_folds_increasing () (replicate 2310 0)
                     folds _ _ Hcv _ in conj (proj1 H) (proj1 (proj2 H))).
  eapply list_elem_of_lookup_2. apply Hfold. vm_compute. lia.
Defined.

Lemma get_cv_loop_in_bounds_witness :
  (get_cv_loop 2311 1).2 = 1 * t_size ∧ (get_cv_loop 2311 1).2 + t_size ≤ 2311.
Proof.
  refine (let H := get_cv_loop_in_bounds 2311 1 _
          in conj (proj1 H) (proj1 (proj2 H))).
  vm_compute. lia.
Defined.

(** * More about the data loader *)

(** ** Paths *)

Lemma string_app_assoc (s1 s2 s3 : string) :
  (s1 +:+ s2) +:+ s3 = s1 +:+ s2 +:+ s3.
Proof.
  induction s1 as [|c s1 IH]; [done|].
  change (String c ((s1 +:+ s2) +:+ s3) = String c (s1 +:+ s2 +:+ s3)).
  by rewrite IH.
Qed.

Lemma ends_with_sep_app_sep (s : string) : os_path.ends_with_sep (s +:+ "/") = true.
Proof.
  induction s as [|c s IH]; [done|].
  change (os_path.ends_with_sep (String c (s +:+ "/")) = true).
  cbn [os_path.ends_with_sep].
  destruct (s +:+ "/") eqn:Hs; [by destruct s|done].
Qed.

(** The directory of the four files: [path/data], with one separator
    between the two whether or not [path] ends with one. *)
Lemma join2_data_trailing_sep (path : string) :
  path ≠ "" → os_path.ends_with_sep path = false →
  os_path.join2 (path +:+ "/") "data" = os_path.join2 path "data".
Proof.
  intros Hne Hsep. unfold os_path.join2. cbn [String.prefix].
  rewrite ends_with_sep_app_sep, Hsep, orb_true_r.
  rewrite bool_decide_eq_false_2 by done. simpl.
  by rewrite string_app_assoc.
Qed.

(** X7: a separator at the end of [path] makes no difference: the same
    files are read, the same lines printed, the same outcome returned. *)
Theorem _read_data_trailing_sep {V} (nan : V) (path f_prefix : string)
    (w : py.world (file V)) :
  path ≠ "" → os_path.ends_with_sep path = false →
  _read_data nan (path +:+ "/") f_prefix w = _read_data nan path f_prefix w.
Proof.
  intros Hne Hsep.
  unfold _read_data, _read_data_step, nc_file, csv_file, os_path.join.
  cbn [foldl]. by rewrite (join2_data_trailing_sep path Hne Hsep).
Qed.

(** ** Which files decide the outcome *)

Lemma reads_within_ret {F A} ps (a : A) : reads_within ps (@py.io_ret F A a).
Proof. by intros w w' _. Qed.

Lemma reads_within_lift {F A} ps (r : py.result A) :
  reads_within ps (@py.lift F A r).
Proof. by intros w w' _. Qed.

Lemma reads_within_print {F} ps (line : string) :
  reads_within ps (@py.print F line).
Proof. by intros w w' _. Qed.

Lemma reads_within_bind {F A B} ps (m : py.io F A) (k : A → py.io F B) :
  reads_only m → reads_within ps m → (∀ a, reads_within ps (k a)) →
  reads_within ps (py.io_bind m k).
Proof.
  intros Hro Hm Hk w w' Hagree. unfold py.io_bind.
  specialize (Hm w w' Hagree).
  destruct (Hro w) as [Hw _]. destruct (Hro w') as [Hw' _].
  destruct (m w) as [[a|e] w1], (m w') as [[a'|e'] w1'];
    simpl in *; try congruence.
  injection Hm as ->. apply Hk. intros p Hp. rewrite Hw, Hw'. by apply Hagree.
Qed.

Lemma reads_within_for_each {F A S} ps (body : S → A → py.io F S) l s :
  (∀ s x, reads_only (body s x)) →
  (∀ s x, x ∈ l → reads_within ps (body s x)) →
  reads_within ps (py.for_each body l s).
Proof.
  intros Hro. revert s. induction l as [|x l IH]; intros s Hbody; simpl.
  - apply reads_within_ret.
  - apply reads_within_bind; [apply Hro|apply Hbody; by left|].
    intros s'. apply IH. intros s'' x' Hx'. apply Hbody. by right.
Qed.

Lemma reads_within_open_dataset {V} ps (path : string) :
  path ∈ ps → reads_within ps (@open_dataset V path).
Proof.
  intros Hin w w' Hagree. unfold open_dataset. rewrite <-(Hagree path Hin).
  by destruct (py.files w !! path) as [[?|?]|].
Qed.

Lemma reads_within_close {V} ps (ds : opened V) : reads_within ps (close ds).
Proof. by intros w w' _. Qed.

Lemma reads_within_read_csv {V} ps (path index_col : string) :
  path ∈ ps → reads_within ps (@read_csv V path index_col).
Proof.
  intros Hin w w' Hagree. unfold read_csv. rewrite <-(Hagree path Hin).
  by destruct (py.files w !! path) as [[?|?]|].
Qed.

Lemma reads_within_read_data {V} (nan : V) path f_prefix :
  reads_within (expected_files path f_prefix) (_read_data nan path f_prefix).
Proof.
  unfold _read_data. apply reads_within_bind.
  { apply reads_only_for_each. intros s x. apply reads_only_read_data_step. }
  { apply reads_within_for_each.
    - intros s x. apply reads_only_read_data_step.
    - intros s x Hx. unfold _read_data_step.
      apply reads_within_bind;
        [apply reads_only_print|apply reads_within_print|intros _].
      apply reads_within_bind;
        [apply reads_only_open_dataset| |intros ds].
      + apply reads_within_open_dataset. unfold expected_files.
        apply elem_of_app. left. by apply list_elem_of_fmap_2.
      + apply reads_within_bind;
          [apply reads_only_load|apply reads_within_ret|intros _].
        do 3 (apply reads_within_bind;
                [apply reads_only_lift|apply reads_within_lift|intros ?]).
        apply reads_within_bind;
          [apply reads_only_close|apply reads_within_close|intros _].
        apply reads_within_ret. }
  intros X_coll.
  apply reads_within_bind;
    [apply reads_only_lift|apply reads_within_lift|intros X_ds].
  apply reads_within_bind; [apply reads_only_read_csv| |intros y].
  { apply reads_within_read_csv. unfold expected_files.
    apply elem_of_app. right. by left. }
  repeat (apply reads_within_bind;
            [apply reads_only_lift|apply reads_within_lift|intros ?]).
  apply reads_within_ret.
Qed.

(** C9: the loader is a function of its four input files.  Two calls in
    worlds that hold the same contents at the four paths give the same
    outcome, the same gridded structure and label vector or the same
    exception, whatever else the worlds hold, whatever was printed and
    whichever files are held open.  A call leaves every file as it was;
    a call that returns has closed each file it opened, so that nothing
    is kept from one call to the next; and a second call, made in the
    world that the first one left, gives the outcome of the first. *)
Theorem _read_data_deterministic {V} (nan : V) (path f_prefix : string)
    (w1 w2 : py.world (file V)) :
  (∀ p, p ∈ expected_files path f_prefix →
        py.files w1 !! p = py.files w2 !! p) →
  (_read_data nan path f_prefix w1).1 = (_read_data nan path f_prefix w2).1 ∧
  py.files (_read_data nan path f_prefix w1).2 = py.files w1 ∧
  (∀ r w1', _read_data nan path f_prefix w1 = (py.Ok r, w1') →
            py.open_files w1' = py.open_files w1) ∧
  (_read_data nan path f_prefix (_read_data nan path f_prefix w1).2).1
  = (_read_data nan path f_prefix w1).1.
Proof.
  intros Hfiles.
  destruct (reads_only_read_data nan path f_prefix w1) as [Hsame _].
  split; [by apply reads_within_read_data|]. split; [done|]. split.
  - intros [X_ds y_array] w1' Hrun.
    by rewrite (_read_data_returns_world nan path f_prefix w1 w1'
                  X_ds y_array Hrun).
  - apply reads_within_read_data. intros p _. by rewrite Hsame.
Qed.

(** X8: the outcome of [_read_data] is decided by the contents of its
    four files alone: two worlds that agree on them give the same
    structure and labels, or the same exception, whatever other files
    they hold. *)
Theorem _read_data_four_files {V} (nan : V) (path f_prefix : string)
    (w w' : py.world (file V)) :
  (∀ p, p ∈ expected_files path f_prefix →
        py.files w !! p = py.files w' !! p) →
  (_read_data nan path f_prefix w).1 = (_read_data nan path f_prefix w').1.
Proof. apply reads_within_read_data. Qed.

(** The files of two prefixes. *)

Lemma join2_relative (base name : string) :
  String.prefix "/" name = false →
  ∃ dir, ∀ name', String.prefix "/" name' = false →
                  os_path.join2 base name' = dir +:+ name'.
Proof.
  intros _. unfold os_path.join2.
  destruct (bool_decide (base = "") || os_path.ends_with_sep base).
  - exists base. by intros name' ->.
  - exists (base +:+ "/"). intros name' ->. by rewrite string_app_assoc.
Qed.

Lemma expected_files_train_test (path p : string) :
  p ∈ expected_files path "train" → p ∉ expected_files path "test".
Proof.
  intros Htrain Htest.
  destruct (join2_relative (os_path.join2 path "data") "train_TS.nc" eq_refl)
    as [dir Hdir].
  unfold expected_files, data_vars, nc_file, csv_file, os_path.join in *.
  cbn [fmap list_fmap foldl app] in *.
  rewrite !Hdir in Htrain, Htest by done.
  repeat (apply elem_of_cons in Htrain as [->|Htrain]);
    [..|by apply elem_of_nil in Htrain];
    repeat (apply elem_of_cons in Htest as [Htest|Htest]);
    try (by apply elem_of_nil in Htest);
    by apply String.app_inj in Htest.
Qed.

(** X9: loading the training data never looks at a test file, and
    loading the test data never looks at a training file: worlds that
    differ in the files of the other prefix only give the same outcome. *)
Theorem get_train_data_apart_from_test {V} (nan : V) (path : string)
    (w w' : py.world (file V)) :
  ((∀ p, p ∉ expected_files path "test" →
         py.files w !! p = py.files w' !! p) →
   (get_train_data nan path w).1 = (get_train_data nan path w').1) ∧
  ((∀ p, p ∉ expected_files path "train" →
         py.files w !! p = py.files w' !! p) →
   (get_test_data nan path w).1 = (get_test_data nan path w').1).
Proof.
  split; intros Hagree; apply reads_within_read_data; intros p Hp;
    apply Hagree.
  - by apply expected_files_train_test.
  - intros Htrain. by apply (expected_files_train_test path p).
Qed.

(** ** Where the loader stops *)

(** When the pass for one variable raises, the loader raises the same
    exception and leaves the world of that pass; it has printed the paths
    up to that variable and no other. *)
Lemma _read_data_step_failure {V} (nan : V) path f_prefix
    (w w1 : py.world (file V)) loaded data_var rest X_coll e :
  data_vars = loaded ++ data_var :: rest →
  py.for_each (_read_data_step path f_prefix) loaded [] w
  = (py.Ok X_coll, w1) →
  (_read_data_step path f_prefix X_coll data_var w1).1 = py.Raise e →
  _read_data nan path f_prefix w
  = (py.Raise e, (_read_data_step path f_prefix X_coll data_var w1).2) ∧
  py.files (_read_data_step path f_prefix X_coll data_var w1).2 = py.files w ∧
  py.stdout (_read_data_step path f_prefix X_coll data_var w1).2
  = py.stdout w ++ (nc_file path f_prefix <$> loaded ++ [data_var]).
Proof.
  intros Hvars Hloaded Hstep.
  unfold _read_data. unfold py.io_bind at 1.
  rewrite Hvars, for_each_app. unfold py.io_bind at 1. rewrite Hloaded.
  cbn [py.for_each]. unfold py.io_bind at 1.
  apply for_each_world in Hloaded as ->.
  destruct (_read_data_step_world path f_prefix X_coll data_var
              (py.World (py.files w)
                 (py.stdout w ++ (nc_file path f_prefix <$> loaded))
                 (py.open_files w)))
    as [Hfiles Hout].
  destruct (_read_data_step path f_prefix X_coll data_var _) as [[s|e'] w2];
    simpl in *; [done|].
  injection Hstep as ->. split; [done|]. split; [done|].
  by rewrite Hout, fmap_app, app_assoc.
Qed.

(** X10: the loader stops at the first pass that raises: it raises that
    exception and leaves the world of that pass, the files are as
    before, the last line it has printed is the path of the file it was
    reading, and the files after it are neither opened nor printed. *)
Theorem _read_data_stops_at_failure {V} (nan : V) path f_prefix
    (w w1 : py.world (file V)) loaded data_var rest X_coll e :
  data_vars = loaded ++ data_var :: rest →
  py.for_each (_read_data_step path f_prefix) loaded [] w
  = (py.Ok X_coll, w1) →
  (_read_data_step path f_prefix X_coll data_var w1).1 = py.Raise e →
  _read_data nan path f_prefix w
  = (py.Raise e, (_read_data_step path f_prefix X_coll data_var w1).2) ∧
  py.files (_read_data_step path f_prefix X_coll data_var w1).2 = py.files w ∧
  py.stdout (_read_data_step path f_prefix X_coll data_var w1).2
  = py.stdout w ++ (nc_file path f_prefix <$> loaded ++ [data_var]).
Proof. apply _read_data_step_failure. Qed.

(** X11: a gridded file that holds no variable of the expected name makes
    the loader raise [KeyError] with that name, when the files before it
    load. *)
Theorem _read_data_missing_variable {V} (nan : V) path f_prefix
    (w w1 : py.world (file V)) loaded data_var rest X_coll ds :
  data_vars = loaded ++ data_var :: rest →
  py.for_each (_read_data_step path f_prefix) loaded [] w
  = (py.Ok X_coll, w1) →
  py.files w !! nc_file path f_prefix data_var = Some (NetCDF ds) →
  ds !! data_var = None →
  (_read_data nan path f_prefix w).1 = py.Raise (py.KeyError data_var).
Proof.
  intros Hvars Hloaded Hfile Hvar.
  enough ((_read_data_step path f_prefix X_coll data_var w1).1
          = py.Raise (py.KeyError data_var)) as Hstep.
  { by destruct (_read_data_step_failure nan path f_prefix w w1 loaded
                   data_var rest X_coll (py.KeyError data_var)
                   Hvars Hloaded Hstep) as [-> _]. }
  pose proof (for_each_files path f_prefix loaded [] w) as Hw.
  rewrite Hloaded in Hw. simpl in Hw.
  unfold _read_data_step, py.io_bind, py.print, open_dataset, load,
    py.io_ret, py.lift.
  simpl. rewrite Hw, Hfile. unfold xr.getitem. simpl. by rewrite Hvar.
Qed.

(** X12: a table without a [Year] column, and a table with the [Year]
    column and no other, make the loader raise [ValueError] once the
    gridded half is done: the first has no index column, the second
    nothing to concatenate. *)
Theorem _read_data_table_edges {V} (nan : V) path f_prefix
    (w w1 : py.world (file V)) (X_ds : xr.Dataset V) (tbl : pd.table V) :
  _read_data_grids nan path f_prefix w = (py.Ok X_ds, w1) →
  py.files w !! csv_file path f_prefix = Some (CSV tbl) →
  "Year" ∉ tbl.*1 ∨ tbl.*1 = ["Year"] →
  _read_data nan path f_prefix w = (py.Raise py.ValueError, w1).
Proof.
  intros Hgrids Hfile Hedge.
  pose proof (reads_only_read_data_grids_files nan path f_prefix w) as Hw.
  rewrite Hgrids in Hw. simpl in Hw.
  rewrite _read_data_halves. unfold py.io_bind at 1. rewrite Hgrids.
  unfold py.io_bind at 1.
  unfold _read_data_labels, py.io_bind, read_csv, py.lift.
  rewrite Hw, Hfile. unfold pd.set_index.
  destruct Hedge as [Hno|Honly].
  - assert (list_find (λ p : string * list V, p.1 = "Year") tbl = None)
      as ->; [|done].
    apply list_find_None, Forall_forall. intros p Hp Hname. apply Hno.
    rewrite <-Hname. by apply list_elem_of_fmap_2.
  - destruct tbl as [|[c cells] [|p tbl]]; try done.
    injection Honly as ->. done.
Qed.

(** ** Labels and samples *)

Lemma concat_uniform_length {A} (ls : list (list A)) n :
  Forall (λ l, length l = n) ls → length (concat ls) = length ls * n.
Proof.
  induction 1 as [|l ls Hl _ IH]; [done|].
  simpl. rewrite length_app, IH, Hl. lia.
Qed.

Lemma concat_uniform_lookup {A} (ls : list (list A)) n e t l :
  Forall (λ l, length l = n) ls → ls !! e = Some l → t < n →
  concat ls !! (e * n + t) = l !! t.
Proof.
  intros Hls. revert e. induction Hls as [|l0 ls Hl0 _ IH]; intros e He Ht.
  { done. }
  destruct e as [|e]; simpl in *.
  - injection He as ->. by rewrite lookup_app_l by lia.
  - rewrite lookup_app_r by lia.
    replace (n + e * n + t - length l0) with (e * n + t) by lia.
    by apply IH.
Qed.

Lemma columns_uniform {V} (cols : list (string * list V)) n :
  Forall (λ p, length p.2 = n) cols → Forall (λ l, length l = n) cols.*2.
Proof. intros H. by apply Forall_fmap. Qed.

(** X13: when every data column has [n] cells, the label of row [t] of
    the data column number [e] of the file (counting from 0) is label
    [e * n + t] of the vector: the labels are laid out like the samples
    of the gridded variables, member by member. *)
Theorem _read_data_label_position {V} (nan : V) path f_prefix
    (w w1 : py.world (file V)) (X_ds : xr.Dataset V) (tbl : pd.table V) n :
  _read_data_grids nan path f_prefix w = (py.Ok X_ds, w1) →
  py.files w !! csv_file path f_prefix = Some (CSV tbl) →
  NoDup tbl.*1 → "Year" ∈ tbl.*1 →
  filter (λ p : string * list V, p.1 ≠ "Year") tbl ≠ [] →
  Forall (λ p, length p.2 = n)
    (filter (λ p : string * list V, p.1 ≠ "Year") tbl) →
  ∃ y_array,
    _read_data nan path f_prefix w = (py.Ok (X_ds, y_array), w1) ∧
    length y_array
    = length (filter (λ p : string * list V, p.1 ≠ "Year") tbl) * n ∧
    ∀ e t c cells,
      filter (λ p : string * list V, p.1 ≠ "Year") tbl !! e = Some (c, cells) →
      t < n → y_array !! (e * n + t) = cells !! t.
Proof.
  intros Hgrids Hfile Hnd Hyear Hdata Hlen.
  pose proof (reads_only_read_data_grids_files nan path f_prefix w) as Hw.
  rewrite Hgrids in Hw. simpl in Hw.
  eexists. split; [|split].
  - rewrite _read_data_halves. unfold py.io_bind at 1. rewrite Hgrids.
    unfold py.io_bind.
    rewrite (_read_data_labels_columns path f_prefix w1 tbl);
      [done|by rewrite Hw|done..].
  - rewrite (concat_uniform_length _ n) by by apply columns_uniform.
    by rewrite length_fmap.
  - intros e t c cells He Ht.
    apply (concat_uniform_lookup _ n); [by apply columns_uniform| |done].
    by rewrite list_lookup_fmap, He.
Qed.

#[local] Opaque t_size.

(** X14: the loader and the fold generator together: with [k >= 2] data
    columns of 1155 cells each, [get_cv] on the loaded labels yields [k]
    folds, and fold [g] tests exactly the positions
    [g * 1155, ..., g * 1155 + 1154], which hold the labels of data column
    number [g]: each fold leaves out one member. *)
Theorem get_cv_leaves_one_member_out {V} (nan : V) path f_prefix
    (w w1 : py.world (file V)) (X_ds : xr.Dataset V) (tbl : pd.table V) :
  _read_data_grids nan path f_prefix w = (py.Ok X_ds, w1) →
  py.files w !! csv_file path f_prefix = Some (CSV tbl) →
  NoDup tbl.*1 → "Year" ∈ tbl.*1 →
  2 ≤ length (filter (λ p : string * list V, p.1 ≠ "Year") tbl) →
  Forall (λ p, length p.2 = t_size)
    (filter (λ p : string * list V, p.1 ≠ "Year") tbl) →
  ∃ y_array folds,
    _read_data nan path f_prefix w = (py.Ok (X_ds, y_array), w1) ∧
    get_cv X_ds y_array = py.Ok folds ∧
    length folds
    = length (filter (λ p : string * list V, p.1 ≠ "Year") tbl) ∧
    ∀ g c cells,
      filter (λ p : string * list V, p.1 ≠ "Year") tbl !! g = Some (c, cells) →
      (∃ train, folds !! g = Some (train, seq (g * t_size) t_size)) ∧
      ∀ j, j < t_size → y_array !! (g * t_size + j) = cells !! j.
Proof.
  intros Hgrids Hfile Hnd Hyear Hk Hlen.
  set (cols := filter (λ p : string * list V, p.1 ≠ "Year") tbl) in *.
  pose proof (reads_only_read_data_grids_files nan path f_prefix w) as Hw.
  rewrite Hgrids in Hw. simpl in Hw. pose proof t_size_pos as Hpos.
  assert (length (concat cols.*2) = length cols * t_size) as Hy.
  { rewrite (concat_uniform_length _ t_size) by by apply columns_uniform.
    by rewrite length_fmap. }
  assert (n_members (length (concat cols.*2)) = length cols) as Hn.
  { unfold n_members. rewrite Hy. apply Nat.div_mul. lia. }
  assert (2 * t_size ≤ length (concat cols.*2)) as HN.
  { rewrite Hy. apply Nat.mul_le_mono_r. lia. }
  destruct (get_cv_folds_lookup X_ds (concat cols.*2) HN)
    as (folds & Hcv & Hfolds & Hfold).
  exists (concat cols.*2), folds. split; [|split; [done|split]].
  - rewrite _read_data_halves. unfold py.io_bind at 1. rewrite Hgrids.
    unfold py.io_bind.
    rewrite (_read_data_labels_columns path f_prefix w1 tbl);
      [done|by rewrite Hw|done..|].
    fold cols. intros Hnil. rewrite Hnil in Hk. simpl in Hk. lia.
  - by rewrite Hfolds, Hn.
  - intros g c cells Hg. split.
    + assert (g < n_members (length (concat cols.*2))) as Hlt
        by (rewrite Hn; by eapply lookup_lt_Some).
      eexists. rewrite Hfold by done. f_equal. f_equal.
      rewrite test_set_block by done.
      replace (length (concat cols.*2)
               - n_members (length (concat cols.*2)) * t_size) with 0
        by (rewrite Hn, Hy; lia).
      case_decide; simpl; by rewrite app_nil_r.
    + intros j Hj.
      apply (concat_uniform_lookup _ t_size);
        [by apply columns_uniform| |done].
      by rewrite list_lookup_fmap, Hg.
Qed.

#[local] Transparent t_size.

(** ** Concrete runs for the further properties *)

Lemma example_grids_with_table (tbl : pd.table Z) out held :
  ∃ X_ds w1,
    _read_data_grids 0%Z "./" "train"
      (py.World (<["./data/train_precip_90.csv" := CSV tbl]> example_files)
         out held)
    = (py.Ok X_ds, w1).
Proof.
  assert (∀ data_var,
            gridded_file (py.World example_files out held)
              "./" "train" data_var (example_grid 2 3 1 2)
              (xr.RangeDim 2) (xr.RangeDim 3) (xr.RangeDim 1) (xr.RangeDim 2) →
            nc_file "./" "train" data_var ≠ "./data/train_precip_90.csv" →
            gridded_file
              (py.World (<["./data/train_precip_90.csv" := CSV tbl]>
                           example_files) out held)
              "./" "train" data_var (example_grid 2 3 1 2)
              (xr.RangeDim 2) (xr.RangeDim 3) (xr.RangeDim 1) (xr.RangeDim 2))
    as Hmove.
  { intros data_var (ds & Hfile & Hrest) Hne. exists ds. split; [|done].
    simpl in *. by rewrite lookup_insert_ne. }
  destruct (_read_data_grids_aligned 0%Z "./" "train"
              (py.World (<["./data/train_precip_90.csv" := CSV tbl]>
                           example_files) out held) _ _ _ _ _ _ _
              (Hmove "TS" (example_gridded_TS out held)
                 ltac:(vm_compute; discriminate))
              (Hmove "PSL" (example_gridded_PSL out held)
                 ltac:(vm_compute; discriminate))
              (Hmove "TMQ" (example_gridded_TMQ out held)
                 ltac:(vm_compute; discriminate)))
    as (r1 & r2 & r3 & w1 & Hgrids & _); [simpl; lia..|].
  by eexists _, _.
Qed.

Lemma _read_data_deterministic_witness :
  (_read_data 0%Z "./" "train" (py.World example_files [] [])).1
  = (_read_data 0%Z "./" "train"
       (py.World (<["notes.txt" := CSV []]> example_files)
          ["earlier output"] ["notes.txt"])).1.
Proof.
  refine (proj1 (_read_data_deterministic 0%Z "./" "train"
                   (py.World example_files [] [])
                   (py.World (<["notes.txt" := CSV []]> example_files)
                      ["earlier output"] ["notes.txt"]) _)).
  intros p Hp. simpl. symmetry. apply lookup_insert_ne. intros <-.
  vm_compute in Hp.
  repeat (apply elem_of_cons in Hp as [Hp|Hp]; [discriminate Hp|]).
  by apply elem_of_nil in Hp.
Defined.

Lemma _read_data_trailing_sep_witness :
  _read_data 0%Z "./" "train" (py.World example_files [] [])
  = _read_data 0%Z "." "train" (py.World example_files [] []).
Proof.
  apply (_read_data_trailing_sep 0%Z "." "train"
           (py.World example_files [] [])).
  - discriminate.
  - reflexivity.
Defined.

Lemma _read_data_four_files_witness :
  (_read_data 0%Z "./" "train" (py.World example_files [] [])).1
  = (_read_data 0%Z "./" "train"
       (py.World (<["notes.txt" := CSV []]> example_files) [] [])).1.
Proof.
  apply (_read_data_four_files 0%Z "./" "train").
  intros p Hp. simpl. symmetry. apply lookup_insert_ne. intros <-.
  vm_compute in Hp.
  repeat (apply elem_of_cons in Hp as [Hp|Hp]; [discriminate Hp|]).
  by apply elem_of_nil in Hp.
Defined.

Lemma get_train_data_apart_from_test_witness :
  (get_train_data 0%Z "./" (py.World example_files [] [])).1
  = (get_train_data 0%Z "./"
       (py.World (<["./data/test_TS.nc" := NetCDF ∅]> example_files) [] [])).1.
Proof.
  refine (proj1 (get_train_data_apart_from_test 0%Z "./"
                   (py.World example_files [] [])
                   (py.World (<["./data/test_TS.nc" := NetCDF ∅]>
                                example_files) [] [])) _).
  intros p Hp. simpl. symmetry. apply lookup_insert_ne. intros <-.
  apply Hp. vm_compute. left.
Defined.

Lemma _read_data_stops_at_failure_witness :
  _read_data 0%Z "./" "train"
    (py.World (delete "./data/train_TS.nc" example_files) [] [])
  = (py.Raise (py.FileNotFoundError "./data/train_TS.nc"),
     py.World (delete "./data/train_TS.nc" example_files)
       ["./data/train_TS.nc"] []).
Proof.
  refine (proj1 (_read_data_stops_at_failure 0%Z "./" "train"
                   (py.World (delete "./data/train_TS.nc" example_files) [] [])
                   (py.World (delete "./data/train_TS.nc" example_files) [] [])
                   [] "TS" ["PSL"; "TMQ"] []
                   (py.FileNotFoundError "./data/train_TS.nc") _ _ _)).
  - reflexivity.
  - reflexivity.
  - vm_compute. reflexivity.
Defined.

Lemma _read_data_missing_variable_witness :
  (_read_data 0%Z "./" "train"
     (py.World (<["./data/train_TS.nc" := NetCDF ∅]> example_files) [] [])).1
  = py.Raise (py.KeyError "TS").
Proof.
  apply (_read_data_missing_variable 0%Z "./" "train"
           (py.World (<["./data/train_TS.nc" := NetCDF ∅]> example_files)
              [] [])
           (py.World (<["./data/train_TS.nc" := NetCDF ∅]> example_files)
              [] [])
           [] "TS" ["PSL"; "TMQ"] [] ∅).
  - reflexivity.
  - reflexivity.
  - vm_compute. reflexivity.
  - reflexivity.
Defined.

Lemma _read_data_table_edges_witness :
  ∃ w1,
    _read_data 0%Z "./" "train"
      (py.World (<["./data/train_precip_90.csv" := CSV [("Year", [1980%Z])]]>
                   example_files) [] [])
    = (py.Raise py.ValueError, w1).
Proof.
  destruct (example_grids_with_table [("Year", [1980%Z])] [] [])
    as (X_ds & w1 & Hgrids).
  exists w1.
  apply (_read_data_table_edges 0%Z "./" "train" _ w1 X_ds
           [("Year", [1980%Z])] Hgrids).
  - vm_compute. reflexivity.
  - right. reflexivity.
Defined.

Lemma _read_data_label_position_witness :
  ∃ X_ds w1 y_array,
    _read_data 0%Z "./" "train" (py.World example_files [] [])
    = (py.Ok (X_ds, y_array), w1) ∧
    y_array !! (1 * 3 + 2) = Some 0%Z.
Proof.
  destruct example_grids as (X_ds & w1 & Hgrids).
  destruct (_read_data_label_position 0%Z "./" "train"
              (py.World example_files [] []) w1 X_ds example_table 3 Hgrids)
    as (y_array & Hrun & _ & Hpos).
  - vm_compute. reflexivity.
  - apply (bool_decide_unpack (NoDup _)). vm_compute. exact I.
  - vm_compute. left.
  - vm_compute. discriminate.
  - apply (bool_decide_unpack (Forall _ _)). vm_compute. exact I.
  - exists X_ds, w1, y_array. split; [exact Hrun|].
    apply (Hpos 1 2 "m2" [1; 1; 0]%Z); [reflexivity|lia].
Defined.

Lemma get_cv_leaves_one_member_out_witness :
  ∃ X_ds w1 y_array folds train,
    _read_data 0%Z "./" "train" (py.World example_files_members [] [])
    = (py.Ok (X_ds, y_array), w1) ∧
    get_cv X_ds y_array = py.Ok folds ∧ length folds = 2 ∧
    folds !! 1 = Some (train, seq (1 * t_size) t_size).
Proof.
  destruct (example_grids_with_table example_table_members [] [])
    as (X_ds & w1 & Hgrids).
  destruct (get_cv_leaves_one_member_out 0%Z "./" "train"
              (py.World example_files_members [] []) w1 X_ds
              example_table_members Hgrids)
    as (y_array & folds & Hrun & Hcv & Hlen & Hfold).
  - vm_compute. reflexivity.
  - apply (bool_decide_unpack (NoDup _)). vm_compute. exact I.
  - vm_compute. left.
  - vm_compute. lia.
  - apply (bool_decide_unpack (Forall _ _)). vm_compute. exact I.
  - destruct (Hfold 1 "m2" (replicate 1155 1%Z)) as [[train Htrain] _];
      [reflexivity|].
    exists X_ds, w1, y_array, folds, train.
    split; [exact Hrun|]. split; [exact Hcv|]. split; [exact Hlen|exact Htrain].
Defined.
